(** * Content store service: CreatePost and ListPosts

    A shallow embedding of the two Lambda handlers of the blog backend
    ([lambda/create-post.ts] and [lambda/get-posts.ts]) together with the
    part of the DynamoDB table they talk to, whose key schema is declared in
    [lib/database-stack.ts].

    - JavaScript strings are sequences of UTF-16 code units ([list N]);
      [String.prototype.trim], [.length] and the [/[<>]/g] replacement work
      on code units.
    - JavaScript values are the values [JSON.parse] can produce, plus
      [undefined] (the result of reading an absent property).
    - Exceptions are completions ([Normal] / [Throw]); the handlers run in a
      state-and-exception monad over the table.
    - The UUID generator, the clock, store outages, the lag of the status
      index and the size of a query page are inputs of an invocation (an
      [Oracle]); [console.error] output is not modelled. *)

From Stdlib Require Import ZArith NArith String Ascii List Lia.
From Stdlib Require Import PrimFloat.
From stdpp Require Import base list gmap sorting.
Import ListNotations.

Set Warnings "-register-all".

Local Open Scope Z_scope.
Local Open Scope bool_scope.

(** ** Strings *)

Module JsString.

(** A JavaScript string: its UTF-16 code units. *)
Abbreviation jsstring := (list N).

(** An ASCII literal of the source as a JavaScript string. *)
Definition lit (s : string) : jsstring :=
  map N_of_ascii (list_ascii_of_string s).

(** The code unit of the double quote, for literals that contain one. *)
Definition dquote : N := 34%N.

Definition quoted (s : string) : jsstring := dquote :: lit s ++ [dquote].

(** [s.length] *)
Definition js_length (s : jsstring) : Z := Z.of_nat (length s).

(** [a === b] on strings. *)
Fixpoint str_eqb (a b : jsstring) : bool :=
  match a, b with
  | [], [] => true
  | x :: a', y :: b' => N.eqb x y && str_eqb a' b'
  | _, _ => false
  end.

(** Lexicographic order on sequences of code units or of bytes. *)
Fixpoint str_leb (a b : jsstring) : bool :=
  match a, b with
  | [], _ => true
  | _ :: _, [] => false
  | x :: a', y :: b' =>
      if N.ltb x y then true
      else if N.ltb y x then false
      else str_leb a' b'
  end.

(** The UTF-8 bytes of a string, as the SDK sends it: a surrogate pair is
    one code point of four bytes, a surrogate without its partner is encoded
    as U+FFFD. *)
Definition is_high_surrogate (c : N) : bool :=
  (N.leb 0xD800 c && N.leb c 0xDBFF)%N.

Definition is_low_surrogate (c : N) : bool :=
  (N.leb 0xDC00 c && N.leb c 0xDFFF)%N.

Fixpoint code_points (s : jsstring) : list N :=
  match s with
  | [] => []
  | c :: rest =>
      if is_high_surrogate c then
        match rest with
        | lo :: rest' =>
            if is_low_surrogate lo
            then (0x10000 + (c - 0xD800) * 0x400 + (lo - 0xDC00))%N
                   :: code_points rest'
            else 0xFFFD%N :: code_points rest
        | [] => [0xFFFD%N]
        end
      else if is_low_surrogate c then 0xFFFD%N :: code_points rest
      else c :: code_points rest
  end.

Definition utf8_of_code_point (cp : N) : list N :=
  (if cp <? 0x80 then [cp]
   else if cp <? 0x800 then [0xC0 + cp / 0x40; 0x80 + cp mod 0x40]
   else if cp <? 0x10000
        then [0xE0 + cp / 0x1000; 0x80 + (cp / 0x40) mod 0x40;
              0x80 + cp mod 0x40]
        else [0xF0 + cp / 0x40000; 0x80 + (cp / 0x1000) mod 0x40;
              0x80 + (cp / 0x40) mod 0x40; 0x80 + cp mod 0x40])%N.

Definition utf8 (s : jsstring) : list N :=
  flat_map utf8_of_code_point (code_points s).

(** The order DynamoDB keeps string sort keys in: lexicographic on their
    UTF-8 bytes. On ASCII strings, such as the timestamps
    [Date.prototype.toISOString] returns, it is [str_leb]. *)
Definition key_leb (a b : jsstring) : bool := str_leb (utf8 a) (utf8 b).

(** ECMAScript WhiteSpace and LineTerminator code points, the ones
    [String.prototype.trim] strips. *)
Definition is_white_space (c : N) : bool :=
  (N.eqb c 0x09 || N.eqb c 0x0A || N.eqb c 0x0B || N.eqb c 0x0C ||
   N.eqb c 0x0D || N.eqb c 0x20 || N.eqb c 0xA0 || N.eqb c 0x1680 ||
   (N.leb 0x2000 c && N.leb c 0x200A) ||
   N.eqb c 0x2028 || N.eqb c 0x2029 || N.eqb c 0x202F ||
   N.eqb c 0x205F || N.eqb c 0x3000 || N.eqb c 0xFEFF)%N.

Fixpoint trimStart (s : jsstring) : jsstring :=
  match s with
  | [] => []
  | c :: s' => if is_white_space c then trimStart s' else s
  end.

Definition trimEnd (s : jsstring) : jsstring := rev (trimStart (rev s)).

(** [s.trim()] *)
Definition trim (s : jsstring) : jsstring := trimEnd (trimStart s).

(** The character class [[<>]]. *)
Definition is_angle (c : N) : bool := (N.eqb c 0x3C || N.eqb c 0x3E)%N.

(** [s.replace(/[<>]/g, '')] *)
Definition remove_angles (s : jsstring) : jsstring :=
  List.filter (fun c => negb (is_angle c)) s.

End JsString.
Export JsString.

(** ** Values, truthiness, property reads, exceptions *)

Inductive JsVal : Type :=
| JUndefined
| JNull
| JBool (b : bool)
| JNum (x : float)
| JStr (s : jsstring)
| JArr (xs : list JsVal)
| JObj (props : list (jsstring * JsVal)).

(** What a [throw] carries: an [Error] instance with its [name] and
    [message], or any other value. *)
Inductive Thrown : Type :=
| ErrorObject (name message : jsstring)
| NonError (v : JsVal).

Inductive Completion (A : Type) : Type :=
| Normal (a : A)
| Throw (e : Thrown).
Arguments Normal {A} a.
Arguments Throw {A} e.

(** ToBoolean: [undefined], [null], [false], [+0], [-0], [NaN] and the empty
    string are falsy; everything else, every object and array included, is
    truthy. *)
Definition truthy (v : JsVal) : bool :=
  match v with
  | JUndefined | JNull => false
  | JBool b => b
  | JNum x => negb (PrimFloat.eqb x 0%float || PrimFloat.is_nan x)
  | JStr s => negb (js_length s =? 0)
  | JArr _ | JObj _ => true
  end.

(** [typeof v === 'string'] *)
Definition typeof_string (v : JsVal) : bool :=
  match v with JStr _ => true | _ => false end.

(** The own property [k] of an object literal or of a [JSON.parse] result. *)
Fixpoint own_prop (props : list (jsstring * JsVal)) (k : jsstring) : JsVal :=
  match props with
  | [] => JUndefined
  | (k', v) :: rest => if str_eqb k' k then v else own_prop rest k
  end.

Definition TypeError (message : jsstring) : Thrown :=
  ErrorObject (lit "TypeError") message.

(** [o.k] for the property names the handlers read ([title], [content],
    [status]): none of them is defined on [Object.prototype],
    [Array.prototype], [String.prototype], [Number.prototype] or
    [Boolean.prototype], so only own properties of objects count. Reading a
    property of [null] or [undefined] throws a [TypeError]. *)
Definition get_prop (o : JsVal) (k : jsstring) : Completion JsVal :=
  match o with
  | JUndefined =>
      Throw (TypeError (lit "Cannot read properties of undefined (reading '"
                          ++ k ++ lit "')"))
  | JNull =>
      Throw (TypeError (lit "Cannot read properties of null (reading '"
                          ++ k ++ lit "')"))
  | JObj props => Normal (own_prop props k)
  | JBool _ | JNum _ | JStr _ | JArr _ => Normal JUndefined
  end.

(** The document that the text [JSON.stringify(v)] denotes: properties whose
    value is [undefined] are left out, [undefined] array elements and
    non-finite numbers become [null], and [-0] prints as [0]. The response
    body is kept as this document rather than as its text. *)
Fixpoint JSON_stringify (v : JsVal) : JsVal :=
  match v with
  | JNum x =>
      if PrimFloat.is_nan x || PrimFloat.is_infinity x then JNull
      else if PrimFloat.eqb x 0%float then JNum 0%float
      else JNum x
  | JArr xs =>
      JArr (map (fun x => match x with
                          | JUndefined => JNull
                          | _ => JSON_stringify x
                          end) xs)
  | JObj props =>
      JObj ((fix members (ps : list (jsstring * JsVal)) :=
               match ps with
               | [] => []
               | (_, JUndefined) :: rest => members rest
               | (k, x) :: rest => (k, JSON_stringify x) :: members rest
               end) props)
  | JUndefined | JNull | JBool _ | JStr _ => v
  end.

(** The JSON parser of the runtime. [JSON.parse] is not part of the
    repository; the handlers only rely on it returning a value or throwing,
    and on the text [{}] denoting the empty object. *)
Class JSONRuntime : Type := {
  JSON_parse : jsstring -> option JsVal;
  JSON_parse_empty_object : JSON_parse (lit "{}") = Some (JObj [])
}.

(** ** Validation and sanitization ([create-post.ts], lines 23-50) *)

Definition msg_title_required : jsstring :=
  lit "Title is required and must be a non-empty string".
Definition msg_title_too_long : jsstring :=
  lit "Title must be less than 200 characters".
Definition msg_content_required : jsstring :=
  lit "Content is required and must be a non-empty string".
Definition msg_content_too_long : jsstring :=
  lit "Content must be less than 10,000 characters".
Definition msg_status_invalid : jsstring :=
  lit "Status must be either " ++ quoted "draft" ++ lit " or "
    ++ quoted "published".

Record Validation : Type := {
  isValid : bool;
  errors : list jsstring
}.

(** [v.trim().length], evaluated by the source only where [v] is a string. *)
Definition trimmed_length (v : JsVal) : Z :=
  match v with
  | JStr s => js_length (trim s)
  | _ => 0
  end.

(** [!v || typeof v !== 'string' || v.trim().length === 0] *)
Definition text_missing (v : JsVal) : bool :=
  negb (truthy v) || negb (typeof_string v) || (trimmed_length v =? 0).

(** [['draft', 'published'].includes(v)] *)
Definition allowed_status (v : JsVal) : bool :=
  match v with
  | JStr s => str_eqb (lit "draft") s || str_eqb (lit "published") s
  | _ => false
  end.

(** Each of [body.title], [body.content], [body.status] is read once here;
    the source reads them again in every test, with the same result. *)
Definition validatePostData (body : JsVal) : Completion Validation :=
  let errors0 : list jsstring := [] in
  match get_prop body (lit "title") with
  | Throw e => Throw e
  | Normal title =>
      let errors1 :=
        if text_missing title then errors0 ++ [msg_title_required]
        else if 200 <? trimmed_length title
             then errors0 ++ [msg_title_too_long]
             else errors0 in
      match get_prop body (lit "content") with
      | Throw e => Throw e
      | Normal content =>
          let errors2 :=
            if text_missing content then errors1 ++ [msg_content_required]
            else if 10000 <? trimmed_length content
                 then errors1 ++ [msg_content_too_long]
                 else errors1 in
          match get_prop body (lit "status") with
          | Throw e => Throw e
          | Normal status =>
              let errors3 :=
                if truthy status && negb (allowed_status status)
                then errors2 ++ [msg_status_invalid]
                else errors2 in
              Normal {| isValid := (Z.of_nat (length errors3) =? 0);
                        errors := errors3 |}
          end
      end
  end.

Definition sanitizeInput (input : jsstring) : jsstring :=
  remove_angles (trim input).

(** The call [sanitizeInput(v)] on a value read from the request: on
    anything but a string, [input.trim] is not callable. *)
Definition call_sanitizeInput (v : JsVal) : Completion jsstring :=
  match v with
  | JStr s => Normal (sanitizeInput s)
  | JUndefined =>
      Throw (TypeError
               (lit "Cannot read properties of undefined (reading 'trim')"))
  | JNull =>
      Throw (TypeError
               (lit "Cannot read properties of null (reading 'trim')"))
  | _ => Throw (TypeError (lit "input.trim is not a function"))
  end.

(** ** The posts table ([database-stack.ts])

    Items are attribute maps. The table's primary key is the pair of the
    string attributes [postId] (partition key) and [createdAt] (sort key);
    the global secondary index [StatusIndex] has partition key [status] and
    sort key [createdAt]. *)

Abbreviation Item := (list (jsstring * JsVal)).
Abbreviation Table := (gmap (jsstring * jsstring) Item).

Definition string_attr (item : Item) (k : jsstring) : option jsstring :=
  match own_prop item k with
  | JStr s => Some s
  | _ => None
  end.

Definition primary_key (item : Item) : option (jsstring * jsstring) :=
  match string_attr item (lit "postId"),
        string_attr item (lit "createdAt") with
  | Some p, Some c => Some (p, c)
  | _, _ => None
  end.

Fixpoint has_attr (item : Item) (k : jsstring) : bool :=
  match item with
  | [] => false
  | (k', _) :: rest => str_eqb k' k || has_attr rest k
  end.

(** The condition expressions the handlers use. *)
Inductive Condition : Type :=
| attribute_not_exists (attr : jsstring).

(** A condition is evaluated on the item currently stored under the primary
    key of the item being written, if there is one. *)
Definition condition_holds (c : Condition) (current : option Item) : bool :=
  match c, current with
  | attribute_not_exists _, None => true
  | attribute_not_exists a, Some item => negb (has_attr item a)
  end.

Record PutCommand : Type := {
  put_Item : Item;
  ConditionExpression : option Condition
}.

Record QueryCommand : Type := {
  IndexName : jsstring;
  KeyConditionValue : jsstring;   (* [#status = :status] *)
  ScanIndexForward : bool;
  Limit : nat
}.

Record QueryOutput : Type := {
  Items : option (list Item)
}.

Definition ConditionalCheckFailedException : Thrown :=
  ErrorObject (lit "ConditionalCheckFailedException")
              (lit "The conditional request failed").

Definition ValidationException : Thrown :=
  ErrorObject (lit "ValidationException")
              (lit "One or more parameter values were invalid").

(** The inputs of one invocation that the handler does not control: the
    identifier [uuidv4()] returns, the text [new Date().toISOString()]
    returns, whether the store call fails before reaching the table
    (unreachable, throttled, access denied, ...) and with what, and, for a
    query, the state of the index and the size of the page:
    - [index_has k] tells whether the write of the item with primary key [k]
      has reached [StatusIndex] (the index is eventually consistent; posts
      are only ever inserted, so a lagging index misses recent items);
    - [page_items] is the number of index entries the store reads before
      the 1 MB limit of a page stops it (item sizes are not modelled: every
      number is allowed). *)
Record Oracle : Type := {
  uuidv4 : jsstring;
  toISOString : jsstring;
  store_fault : option Thrown;
  index_has : jsstring * jsstring -> bool;
  page_items : nat
}.

Record Env : Type := {
  NODE_ENV : option jsstring
}.

(** State-and-exception monad over the table. *)
Definition M (A : Type) : Type := Table -> Completion A * Table.

Definition ret {A} (a : A) : M A := fun t => (Normal a, t).

Definition bind {A B} (m : M A) (f : A -> M B) : M B :=
  fun t =>
    match m t with
    | (Normal a, t') => f a t'
    | (Throw e, t') => (Throw e, t')
    end.

Definition lift {A} (c : Completion A) : M A := fun t => (c, t).

(** [try { m } catch (error) { return h error }] at the top of a handler. *)
Definition try_catch {A} (m : M A) (h : Thrown -> A) : Table -> A * Table :=
  fun t =>
    match m t with
    | (Normal a, t') => (a, t')
    | (Throw e, t') => (h e, t')
    end.

Notation "'do' x <- m ; k" := (bind m (fun x => k))
  (at level 10, x name, m at level 100, k at level 200).

(** [docClient.send(new PutCommand(...))]: the item replaces whatever is
    stored under its primary key, unless the condition expression fails on
    the item stored there; a write without both key attributes is refused. *)
Definition send_put (orc : Oracle) (cmd : PutCommand) : M unit :=
  fun t =>
    match store_fault orc with
    | Some e => (Throw e, t)
    | None =>
        match primary_key (put_Item cmd) with
        | None => (Throw ValidationException, t)
        | Some k =>
            let ok := match ConditionExpression cmd with
                      | None => true
                      | Some c => condition_holds c (t !! k)
                      end in
            if ok then (Normal tt, <[k := put_Item cmd]> t)
            else (Throw ConditionalCheckFailedException, t)
        end
    end.

(** The sort key of an index entry. *)
Definition sort_key (item : Item) : jsstring :=
  match string_attr item (lit "createdAt") with
  | Some c => c
  | None => []
  end.

(** Index order: ascending [createdAt] when [forward] ([ScanIndexForward]),
    descending otherwise. *)
Definition before (forward : bool) (a b : Item) : bool :=
  if forward then key_leb (sort_key a) (sort_key b)
  else key_leb (sort_key b) (sort_key a).

(** Insertion into a list kept in index order. *)
Fixpoint index_insert (forward : bool) (x : Item) (l : list Item)
  : list Item :=
  match l with
  | [] => [x]
  | y :: l' => if before forward x y then x :: l
               else y :: index_insert forward x l'
  end.

Fixpoint index_sort (forward : bool) (l : list Item) : list Item :=
  match l with
  | [] => []
  | x :: l' => index_insert forward x (index_sort forward l')
  end.

(** An item is in [StatusIndex] under partition [s] when its [status] is the
    string [s] and it has a string [createdAt]. *)
Definition in_partition (s : jsstring) (item : Item) : bool :=
  match string_attr item (lit "status"),
        string_attr item (lit "createdAt") with
  | Some s', Some _ => str_eqb s' s
  | _, _ => false
  end.

Definition table_items (t : Table) : list Item := (map_to_list t).*2.

(** The items of the table whose write has reached the index. *)
Definition indexed_items (orc : Oracle) (t : Table) : list Item :=
  (List.filter (fun entry => index_has orc (fst entry)) (map_to_list t)).*2.

(** [docClient.send(new QueryCommand(...))] on [StatusIndex]: the entries of
    the partition named by the key condition that the index holds, in index
    order, cut at [Limit] or where the page is full, whichever comes first.
    The handler sends one query and does not follow [LastEvaluatedKey]. *)
Definition send_query (orc : Oracle) (cmd : QueryCommand) : M QueryOutput :=
  fun t =>
    match store_fault orc with
    | Some e => (Throw e, t)
    | None =>
        let partition :=
          List.filter (in_partition (KeyConditionValue cmd))
                      (indexed_items orc t) in
        let ordered := index_sort (ScanIndexForward cmd) partition in
        (Normal {| Items := Some (firstn (Nat.min (Limit cmd) (page_items orc))
                                         ordered) |}, t)
    end.

(** ** Requests and responses *)

Record APIGatewayProxyEvent : Type := {
  event_body : option jsstring          (* [event.body : string | null] *)
}.

Record APIGatewayProxyResult : Type := {
  statusCode : Z;
  headers : list (string * string);
  body : JsVal                          (* the document [body] encodes *)
}.

Definition json_headers : list (string * string) :=
  [("Content-Type", "application/json");
   ("Access-Control-Allow-Origin", "*")]%string.

(** [event.body || '{}'] *)
Definition body_or_default (event : APIGatewayProxyEvent) : jsstring :=
  match event_body event with
  | Some text => if truthy (JStr text) then text else lit "{}"
  | None => lit "{}"
  end.

(** [error instanceof Error ? error.message : 'Unknown error'] *)
Definition errorMessage (error : Thrown) : jsstring :=
  match error with
  | ErrorObject _ message => message
  | NonError _ => lit "Unknown error"
  end.

(** [process.env.NODE_ENV === 'development'] *)
Definition development_mode (env : Env) : bool :=
  match NODE_ENV env with
  | Some mode => str_eqb mode (lit "development")
  | None => false
  end.

(** [process.env.NODE_ENV === 'development' ? errorMessage : undefined] *)
Definition detail_message (env : Env) (error : Thrown) : JsVal :=
  if development_mode env then JStr (errorMessage error) else JUndefined.

(** ** CreatePost ([create-post.ts], lines 52-144) *)

Module CreatePost.
Section Handler.
Context `{JSONRuntime}.
Variable env : Env.
Variable orc : Oracle.

Definition invalid_json_response : APIGatewayProxyResult :=
  {| statusCode := 400;
     headers := json_headers;
     body := JSON_stringify
               (JObj [(lit "error", JStr (lit "Invalid JSON in request body"))])
  |}.

Definition validation_failed_response (validation : Validation)
  : APIGatewayProxyResult :=
  {| statusCode := 400;
     headers := json_headers;
     body := JSON_stringify
               (JObj [(lit "error", JStr (lit "Validation failed"));
                      (lit "details", JArr (map JStr (errors validation)))])
  |}.

Definition created_response (post : Item) : APIGatewayProxyResult :=
  {| statusCode := 201;
     headers := json_headers;
     body := JSON_stringify (JObj post) |}.

Definition conflict_response : APIGatewayProxyResult :=
  {| statusCode := 409;
     headers := json_headers;
     body := JSON_stringify
               (JObj [(lit "error",
                       JStr (lit "Post with this ID already exists"))]) |}.

Definition failure_response (error : Thrown) : APIGatewayProxyResult :=
  {| statusCode := 500;
     headers := json_headers;
     body := JSON_stringify
               (JObj [(lit "error", JStr (lit "Failed to create post"));
                      (lit "message", detail_message env error)]) |}.

(** [error instanceof Error && error.name === 'ConditionalCheckFailedException'] *)
Definition is_conditional_check_failed (error : Thrown) : bool :=
  match error with
  | ErrorObject name _ => str_eqb name (lit "ConditionalCheckFailedException")
  | NonError _ => false
  end.

(** The [catch (error)] block. *)
Definition on_error (error : Thrown) : APIGatewayProxyResult :=
  if is_conditional_check_failed error then conflict_response
  else failure_response error.

(** The statements after a successful validation: build the post, write it
    conditionally, answer 201. *)
Definition store_post (body : JsVal) : M APIGatewayProxyResult :=
  let postId := uuidv4 orc in
  let createdAt := toISOString orc in
  do raw_title <- lift (get_prop body (lit "title"));
  do title <- lift (call_sanitizeInput raw_title);
  do raw_content <- lift (get_prop body (lit "content"));
  do content <- lift (call_sanitizeInput raw_content);
  do raw_status <- lift (get_prop body (lit "status"));
  let post : Item :=
    [(lit "postId", JStr postId);
     (lit "createdAt", JStr createdAt);
     (lit "title", JStr title);
     (lit "content", JStr content);
     (lit "status", if truthy raw_status then raw_status
                    else JStr (lit "draft"));
     (lit "updatedAt", JStr createdAt)] in
  do _ <- send_put orc
            {| put_Item := post;
               ConditionExpression :=
                 Some (attribute_not_exists (lit "postId")) |};
  ret (created_response post).

(** The body of the outer [try]. *)
Definition attempt (event : APIGatewayProxyEvent) : M APIGatewayProxyResult :=
  match JSON_parse (body_or_default event) with
  | None => ret invalid_json_response
  | Some body =>
      do validation <- lift (validatePostData body);
      if negb (isValid validation)
      then ret (validation_failed_response validation)
      else store_post body
  end.

Definition handler (event : APIGatewayProxyEvent)
  : Table -> APIGatewayProxyResult * Table :=
  try_catch (attempt event) on_error.

End Handler.
End CreatePost.

(** ** ListPosts ([get-posts.ts]) *)

Module GetPosts.
Section Handler.
Variable env : Env.
Variable orc : Oracle.

Definition cached_headers : list (string * string) :=
  [("Content-Type", "application/json");
   ("Access-Control-Allow-Origin", "*");
   ("Cache-Control", "public, max-age=300")]%string.

Definition published_query : QueryCommand :=
  {| IndexName := lit "StatusIndex";
     KeyConditionValue := lit "published";
     ScanIndexForward := false;
     Limit := 50 |}.

(** [result.Items || []] *)
Definition items_or_empty (result : QueryOutput) : list Item :=
  match Items result with
  | Some items => items
  | None => []
  end.

Definition ok_response (result : QueryOutput) : APIGatewayProxyResult :=
  {| statusCode := 200;
     headers := cached_headers;
     body := JSON_stringify (JArr (map JObj (items_or_empty result))) |}.

Definition failure_response (error : Thrown) : APIGatewayProxyResult :=
  {| statusCode := 500;
     headers := json_headers;
     body := JSON_stringify
               (JObj [(lit "error", JStr (lit "Failed to fetch posts"));
                      (lit "message", detail_message env error)]) |}.

Definition attempt : M APIGatewayProxyResult :=
  do result <- send_query orc published_query;
  ret (ok_response result).

Definition handler (event : APIGatewayProxyEvent)
  : Table -> APIGatewayProxyResult * Table :=
  try_catch attempt failure_response.

End Handler.
End GetPosts.

(** ** Invariant and auxiliary notions used by the statements *)

(** Every item of the table is stored under its own primary key (DynamoDB
    keeps the key attributes in the item). *)
Definition table_wf (t : Table) : Prop :=
  forall k item, t !! k = Some item -> primary_key item = Some k.

(** The value of [o.k] when the read does not throw. *)
Definition field (o : JsVal) (k : jsstring) : JsVal :=
  match get_prop o k with
  | Normal v => v
  | Throw _ => JUndefined
  end.

(** A candidate on which property reads do not throw: any [JSON.parse]
    result except [null]. *)
Definition readable (o : JsVal) : bool :=
  match o with
  | JUndefined | JNull => false
  | _ => true
  end.

(** [o.k] of a member of a response body, when it is a string. *)
Definition doc_string (doc : JsVal) (k : jsstring) : option jsstring :=
  match doc with
  | JObj props => string_attr props k
  | _ => None
  end.


(** The post [CreatePost] builds from a valid candidate. *)
Definition post_of (orc : Oracle) (title content : jsstring) (status : JsVal)
  : Item :=
  [(lit "postId", JStr (uuidv4 orc));
   (lit "createdAt", JStr (toISOString orc));
   (lit "title", JStr (sanitizeInput title));
   (lit "content", JStr (sanitizeInput content));
   (lit "status", if truthy status then status else JStr (lit "draft"));
   (lit "updatedAt", JStr (toISOString orc))].

(** ** Concrete runtimes and requests, for running the model *)

(** A JSON runtime that knows the parse of finitely many request texts. *)
Definition lookup_parse (known : list (jsstring * JsVal)) (text : jsstring)
  : option JsVal :=
  if str_eqb text (lit "{}") then Some (JObj [])
  else match List.find (fun e => str_eqb (fst e) text) known with
       | Some e => Some (snd e)
       | None => None
       end.

Definition lookup_runtime (known : list (jsstring * JsVal)) : JSONRuntime :=
  {| JSON_parse := lookup_parse known;
     JSON_parse_empty_object := eq_refl |}.

(** The text [{"title":"<title>","content":"<content>"<extra>}]. *)
Definition request_text (title content extra : jsstring) : jsstring :=
  lit "{" ++ quoted "title" ++ lit ":" ++ [dquote] ++ title ++ [dquote]
    ++ lit "," ++ quoted "content" ++ lit ":" ++ [dquote] ++ content
    ++ [dquote] ++ extra ++ lit "}".

Definition request_value (title content : jsstring)
  (extra : list (jsstring * JsVal)) : JsVal :=
  JObj ((lit "title", JStr title) :: (lit "content", JStr content) :: extra).

Definition request (text : jsstring) : APIGatewayProxyEvent :=
  {| event_body := Some text |}.

Definition production : Env := {| NODE_ENV := Some (lit "production") |}.
Definition development : Env := {| NODE_ENV := Some (lit "development") |}.

Definition calm (id now : string) : Oracle :=
  {| uuidv4 := lit id; toISOString := lit now; store_fault := None;
     index_has := fun _ => true; page_items := 50 |}.

Definition failing (id now : string) (e : Thrown) : Oracle :=
  {| uuidv4 := lit id; toISOString := lit now; store_fault := Some e;
     index_has := fun _ => true; page_items := 50 |}.

Definition stored_post (id now title status : string) : Item :=
  [(lit "postId", JStr (lit id));
   (lit "createdAt", JStr (lit now));
   (lit "title", JStr (lit title));
   (lit "content", JStr (lit "..."));
   (lit "status", JStr (lit status));
   (lit "updatedAt", JStr (lit now))].

Definition table_of (items : list Item) : Table :=
  foldr (fun item t => match primary_key item with
                       | Some k => <[k := item]> t
                       | None => t
                       end) ∅ items.

(** The messages each rule of [validatePostData] contributes. *)
Definition title_errors (title : JsVal) : list jsstring :=
  if text_missing title then [msg_title_required]
  else if 200 <? trimmed_length title then [msg_title_too_long]
  else [].

Definition content_errors (content : JsVal) : list jsstring :=
  if text_missing content then [msg_content_required]
  else if 10000 <? trimmed_length content then [msg_content_too_long]
  else [].

Definition status_errors (status : JsVal) : list jsstring :=
  if truthy status && negb (allowed_status status) then [msg_status_invalid]
  else [].

Definition all_errors (body : JsVal) : list jsstring :=
  title_errors (field body (lit "title"))
    ++ content_errors (field body (lit "content"))
    ++ status_errors (field body (lit "status")).

(** Requests and their parses. *)
Definition status_member (v : jsstring) : jsstring :=
  lit "," ++ quoted "status" ++ lit ":" ++ v.

Definition hello_text : jsstring :=
  request_text (lit "Hi <b>there</b>") (lit "Body & <i>stuff</i>") [].
Definition hello_value : JsVal :=
  request_value (lit "Hi <b>there</b>") (lit "Body & <i>stuff</i>") [].

Definition tagged_text : jsstring :=
  request_text (lit "Notes") (lit "Body")
    (lit "," ++ quoted "tags" ++ lit ":[" ++ quoted "a" ++ lit "]").
Definition tagged_value : JsVal :=
  request_value (lit "Notes") (lit "Body")
    [(lit "tags", JArr [JStr (lit "a")])].

Definition rejected_text : jsstring :=
  request_text [] [] (status_member (quoted "invalid")).
Definition rejected_value : JsVal :=
  request_value [] [] [(lit "status", JStr (lit "invalid"))].

Definition zero_status_text : jsstring :=
  request_text (lit "Notes") (lit "Body") (status_member (lit "0")).
Definition zero_status_value : JsVal :=
  request_value (lit "Notes") (lit "Body") [(lit "status", JNum 0%float)].

Definition untitled_text : jsstring :=
  lit "{" ++ quoted "content" ++ lit ":" ++ quoted "Body" ++ lit "}".
Definition untitled_value : JsVal :=
  JObj [(lit "content", JStr (lit "Body"))].

Definition letters (n : N) : jsstring :=
  repeat (N_of_ascii "a") (N.to_nat n).

Definition boundary_text : jsstring :=
  request_text (letters 200) (letters 10000) [].
Definition boundary_value : JsVal :=
  request_value (letters 200) (letters 10000) [].

Definition long_title_text : jsstring :=
  request_text (letters 201) (lit "Body") [].
Definition long_title_value : JsVal :=
  request_value (letters 201) (lit "Body") [].

Definition long_content_text : jsstring :=
  request_text (lit "Notes") (letters 10001) [].
Definition long_content_value : JsVal :=
  request_value (lit "Notes") (letters 10001) [].

Definition sample_runtime : JSONRuntime :=
  lookup_runtime
    [(hello_text, hello_value);
     (tagged_text, tagged_value);
     (rejected_text, rejected_value);
     (zero_status_text, zero_status_value);
     (untitled_text, untitled_value);
     (boundary_text, boundary_value);
     (long_title_text, long_title_value);
     (long_content_text, long_content_value)].

Definition an_id : string := "0b9f4c1e-5a52-4c7e-9d0a-6f1f2f8f3a11".
Definition jan_1 : string := "2024-01-01T00:00:00.000Z".
Definition jan_2 : string := "2024-01-02T00:00:00.000Z".
Definition jan_3 : string := "2024-01-03T00:00:00.000Z".

Definition unreachable : Thrown :=
  ErrorObject (lit "TimeoutError") (lit "connect ETIMEDOUT").

Definition members_of (doc : JsVal) : list (jsstring * JsVal) :=
  match doc with
  | JObj props => props
  | _ => []
  end.

(** The index order as a relation. *)
Definition precedes (forward : bool) (a b : Item) : Prop :=
  before forward a b = true.

Definition feed_table : Table :=
  table_of [stored_post "post-1" jan_1 "First" "published";
            stored_post "post-2" jan_3 "Third" "published";
            stored_post "post-3" jan_2 "Hidden" "draft";
            stored_post "post-4" jan_2 "Second" "published"].

(** ** Deployment stages ([config/environments.ts]) *)

Record EnvironmentConfig : Type := {
  stage : jsstring;
  domainName : option jsstring;
  certificateArn : option jsstring;
  corsOrigins : list jsstring;
  logRetentionDays : Z;
  enablePointInTimeRecovery : bool;
  enableWaf : bool
}.

(** The own properties of the [environments] object literal. *)
Definition environments : list (jsstring * EnvironmentConfig) :=
  [(lit "dev",
    {| stage := lit "dev";
       domainName := None;
       certificateArn := None;
       corsOrigins := [lit "*"];
       logRetentionDays := 3;
       enablePointInTimeRecovery := false;
       enableWaf := false |});
   (lit "staging",
    {| stage := lit "staging";
       domainName := None;
       certificateArn := None;
       corsOrigins := [lit "https://staging.yourdomain.com"];
       logRetentionDays := 7;
       enablePointInTimeRecovery := true;
       enableWaf := true |});
   (lit "prod",
    {| stage := lit "prod";
       domainName := Some (lit "yourdomain.com");
       certificateArn := None;
       corsOrigins := [lit "https://yourdomain.com"];
       logRetentionDays := 30;
       enablePointInTimeRecovery := true;
       enableWaf := true |})].

(** The property names every object literal inherits from
    [Object.prototype]; each names a function or an object, so each is
    truthy. *)
Definition Object_prototype_names : list jsstring :=
  [lit "constructor"; lit "__defineGetter__"; lit "__defineSetter__";
   lit "hasOwnProperty"; lit "__lookupGetter__"; lit "__lookupSetter__";
   lit "isPrototypeOf"; lit "propertyIsEnumerable"; lit "toString";
   lit "valueOf"; lit "__proto__"; lit "toLocaleString"].

(** What [environments[stage]] evaluates to: an own property, a member
    inherited from [Object.prototype], or [undefined]. *)
Inductive Member : Type :=
| OwnMember (config : EnvironmentConfig)
| InheritedMember (name : jsstring)
| NoMember.

Fixpoint own_config (table : list (jsstring * EnvironmentConfig))
  (k : jsstring) : option EnvironmentConfig :=
  match table with
  | [] => None
  | (k', c) :: rest => if str_eqb k' k then Some c else own_config rest k
  end.

Definition environments_get (k : jsstring) : Member :=
  match own_config environments k with
  | Some c => OwnMember c
  | None => if existsb (fun n => str_eqb n k) Object_prototype_names
            then InheritedMember k
            else NoMember
  end.

(** [new Error(message)] *)
Definition Error (message : jsstring) : Thrown :=
  ErrorObject (lit "Error") message.

Definition getEnvironmentConfig (stage : jsstring) : Completion Member :=
  let config := environments_get stage in
  match config with
  | NoMember => Throw (Error (lit "Unknown environment: " ++ stage))
  | _ => Normal config
  end.

(** ** Further notions used by the statements *)

(** A [JSON.parse] result that is neither an object nor [null]. *)
Definition is_scalar_or_array (v : JsVal) : bool :=
  match v with
  | JBool _ | JNum _ | JStr _ | JArr _ => true
  | JUndefined | JNull | JObj _ => false
  end.

(** The number of entries of the [published] partition that the index
    holds. *)
Definition published_indexed (orc : Oracle) (t : Table) : nat :=
  length (List.filter (in_partition (lit "published")) (indexed_items orc t)).

(** An oracle for a query on a lagging index and a short page. *)
Definition lagging (missing : string) (page : nat) : Oracle :=
  {| uuidv4 := []; toISOString := []; store_fault := None;
     index_has := fun k => negb (str_eqb (fst k) (lit missing));
     page_items := page |}.

(** The documents ListPosts returns on a table, when it answers with an
    array. *)
Definition listed (env : Env) (orc : Oracle) (t : Table) : list JsVal :=
  match body (fst (GetPosts.handler env orc {| event_body := None |} t)) with
  | JArr docs => docs
  | _ => []
  end.

(** More requests and their parses. *)
Definition brackets_text : jsstring :=
  request_text (lit " <<>> ") (lit "Body") [].
Definition brackets_value : JsVal :=
  request_value (lit " <<>> ") (lit "Body") [].

Definition published_text : jsstring :=
  request_text (lit "News") (lit "Body") (status_member (quoted "published")).
Definition published_value : JsVal :=
  request_value (lit "News") (lit "Body")
    [(lit "status", JStr (lit "published"))].

Definition edge_runtime : JSONRuntime :=
  lookup_runtime
    [(lit "null", JNull);
     (lit "[]", JArr []);
     (lit "42", JNum 42%float);
     (brackets_text, brackets_value);
     (published_text, published_value);
     (hello_text, hello_value)].

(** * Properties *)

(** ** Strings *)

Lemma str_eqb_eq (a b : jsstring) : str_eqb a b = true <-> a = b.
Proof.
  revert b; induction a as [|x a IH]; intros [|y b]; simpl; try easy.
  rewrite andb_true_iff, N.eqb_eq, IH. split.
  - intros [-> ->]; reflexivity.
  - intros E; injection E; auto.
Qed.

Lemma str_eqb_refl (a : jsstring) : str_eqb a a = true.
Proof. apply str_eqb_eq; reflexivity. Qed.

Lemma str_eqb_neq (a b : jsstring) : str_eqb a b = false <-> a <> b.
Proof.
  rewrite <- str_eqb_eq. destruct (str_eqb a b); split; congruence.
Qed.

Lemma str_leb_total (a b : jsstring) :
  str_leb a b = true \/ str_leb b a = true.
Proof.
  revert b; induction a as [|x a IH]; intros [|y b]; simpl; auto.
  destruct (N.ltb_spec x y), (N.ltb_spec y x); auto; lia.
Qed.

Lemma str_leb_trans (a b c : jsstring) :
  str_leb a b = true -> str_leb b c = true -> str_leb a c = true.
Proof.
  revert b c; induction a as [|x a IH]; intros [|y b] [|z c]; simpl;
    try easy.
  destruct (N.ltb_spec x y), (N.ltb_spec y x), (N.ltb_spec y z),
    (N.ltb_spec z y), (N.ltb_spec x z), (N.ltb_spec z x);
    try easy; try lia.
  apply IH.
Qed.

Lemma trimStart_suffix (s : jsstring) : exists p, s = p ++ trimStart s.
Proof.
  induction s as [|c s [p Hp]]; simpl.
  - exists []; reflexivity.
  - destruct (is_white_space c).
    + exists (c :: p); simpl; congruence.
    + exists []; reflexivity.
Qed.

Lemma trimStart_idem (s : jsstring) : trimStart (trimStart s) = trimStart s.
Proof.
  induction s as [|c s IH]; simpl; [reflexivity|].
  destruct (is_white_space c) eqn:E; [exact IH|].
  simpl; rewrite E; reflexivity.
Qed.

Lemma trimStart_app (s t : jsstring) :
  trimStart (s ++ t) =
  match trimStart s with
  | [] => trimStart t
  | r => r ++ t
  end.
Proof.
  induction s as [|c s IH]; simpl; [destruct (trimStart t); reflexivity|].
  destruct (is_white_space c); [exact IH|reflexivity].
Qed.

Lemma trimEnd_cons (c : N) (s : jsstring) :
  trimEnd (c :: s) =
  match trimEnd s with
  | [] => if is_white_space c then [] else [c]
  | r => c :: r
  end.
Proof.
  unfold trimEnd; simpl rev. rewrite trimStart_app.
  destruct (trimStart (rev s)) as [|d r] eqn:E; simpl.
  - destruct (is_white_space c); reflexivity.
  - rewrite rev_app_distr; simpl.
    destruct (rev r ++ [d]) eqn:E'; [|reflexivity].
    destruct (rev r); discriminate.
Qed.

Lemma trimEnd_idem (s : jsstring) : trimEnd (trimEnd s) = trimEnd s.
Proof.
  unfold trimEnd. rewrite rev_involutive, trimStart_idem. reflexivity.
Qed.

Lemma trimStart_trimEnd_fixed (s : jsstring) :
  trimStart s = s -> trimStart (trimEnd s) = trimEnd s.
Proof.
  destruct s as [|c s]; [reflexivity|].
  simpl trimStart. destruct (is_white_space c) eqn:E.
  - intros Hs. destruct (trimStart_suffix s) as [p Hp].
    rewrite Hs in Hp. apply (f_equal (@length N)) in Hp.
    rewrite length_app in Hp; simpl in Hp; lia.
  - intros _. rewrite trimEnd_cons.
    destruct (trimEnd s); rewrite ?E; simpl; rewrite E; reflexivity.
Qed.

Lemma trim_idem (s : jsstring) : trim (trim s) = trim s.
Proof.
  unfold trim.
  rewrite (trimStart_trimEnd_fixed (trimStart s) (trimStart_idem s)).
  apply trimEnd_idem.
Qed.

Lemma Forall_trimStart (P : N -> Prop) (s : jsstring) :
  Forall P s -> Forall P (trimStart s).
Proof.
  intros H. destruct (trimStart_suffix s) as [p Hp].
  rewrite Hp in H. apply Forall_app in H. tauto.
Qed.

Lemma Forall_trim (P : N -> Prop) (s : jsstring) :
  Forall P s -> Forall P (trim s).
Proof.
  intros H. unfold trim, trimEnd.
  apply Forall_rev, Forall_trimStart, Forall_rev, Forall_trimStart, H.
Qed.

Lemma remove_angles_clean (s : jsstring) :
  Forall (fun c => is_angle c = false) (remove_angles s).
Proof.
  unfold remove_angles. apply List.Forall_forall. intros c Hc.
  apply List.filter_In in Hc. destruct Hc as [_ Hc].
  destruct (is_angle c); [discriminate|reflexivity].
Qed.

Lemma remove_angles_fixed (s : jsstring) :
  Forall (fun c => is_angle c = false) s -> remove_angles s = s.
Proof.
  unfold remove_angles. induction 1 as [|c s Hc _ IH]; simpl.
  - reflexivity.
  - rewrite Hc; simpl. rewrite IH. reflexivity.
Qed.

Lemma is_angle_spec (c : N) :
  is_angle c = false <-> c <> N_of_ascii "<" /\ c <> N_of_ascii ">".
Proof.
  unfold is_angle. rewrite orb_false_iff, !N.eqb_neq. reflexivity.
Qed.

(** ** Sanitizer *)

Lemma sanitizeInput_clean (s : jsstring) :
  Forall (fun c => is_angle c = false) (sanitizeInput s).
Proof. apply remove_angles_clean. Qed.

Lemma sanitizeInput_twice (s : jsstring) :
  sanitizeInput (sanitizeInput s) = trim (sanitizeInput s).
Proof.
  unfold sanitizeInput at 1.
  apply remove_angles_fixed, Forall_trim, sanitizeInput_clean.
Qed.

Lemma sanitizeInput_angle_free (s : jsstring) :
  Forall (fun c => is_angle c = false) s ->
  sanitizeInput (sanitizeInput s) = sanitizeInput s.
Proof.
  intros H. rewrite sanitizeInput_twice. unfold sanitizeInput.
  rewrite (remove_angles_fixed (trim s)) by (apply Forall_trim, H).
  apply trim_idem.
Qed.

(** C5, as the code has it: the output of [sanitizeInput] never contains
    [<] or [>]; a second application only trims the output of the first
    (removing a bracket can expose whitespace that the earlier [trim] did not
    see, so [sanitizeInput] is not idempotent on every string); it is
    idempotent on strings free of [<] and [>], and from its second
    application on. *)
Theorem sanitizeInput_strips_and_settles (s : jsstring) :
  Forall (fun c => c <> N_of_ascii "<" /\ c <> N_of_ascii ">")
         (sanitizeInput s) /\
  sanitizeInput (sanitizeInput s) = trim (sanitizeInput s) /\
  sanitizeInput (sanitizeInput (remove_angles s)) =
    sanitizeInput (remove_angles s) /\
  sanitizeInput (sanitizeInput (sanitizeInput s)) =
    sanitizeInput (sanitizeInput s).
Proof.
  split; [|split; [|split]].
  - eapply Forall_impl; [apply sanitizeInput_clean|].
    intros c Hc. apply is_angle_spec, Hc.
  - apply sanitizeInput_twice.
  - apply sanitizeInput_angle_free, remove_angles_clean.
  - rewrite (sanitizeInput_twice s).
    unfold sanitizeInput at 1.
    rewrite (remove_angles_fixed (trim (trim (sanitizeInput s))))
      by (apply Forall_trim, Forall_trim, sanitizeInput_clean).
    apply trim_idem.
Qed.

(** C5 as stated fails: on ["< a"] the first pass leaves [" a"], the second
    trims it to ["a"]. *)
Lemma sanitizeInput_not_idempotent :
  sanitizeInput (lit "< a") = lit " a" /\
  sanitizeInput (sanitizeInput (lit "< a")) = lit "a" /\
  sanitizeInput (sanitizeInput (lit "< a")) <> sanitizeInput (lit "< a").
Proof. repeat split. discriminate. Qed.

(** ** Validator *)

Lemma get_prop_readable (o : JsVal) (k : jsstring) :
  readable o = true -> get_prop o k = Normal (field o k).
Proof. destruct o; simpl; try discriminate; reflexivity. Qed.

Lemma get_prop_unreadable (o : JsVal) (k : jsstring) :
  readable o = false -> exists e, get_prop o k = Throw e.
Proof. destruct o; simpl; try discriminate; eauto. Qed.

Lemma get_prop_Normal (o : JsVal) (k : jsstring) (v : JsVal) :
  get_prop o k = Normal v -> readable o = true /\ field o k = v.
Proof.
  unfold field. destruct o; simpl; try discriminate;
    intros E; injection E as <-; auto.
Qed.

Lemma list_is_empty {A} (l : list A) :
  (Z.of_nat (length l) =? 0) = match l with [] => true | _ => false end.
Proof. destruct l; reflexivity. Qed.

(** On a readable candidate the validator returns, and reports the messages
    of the three rules in their order of declaration. *)
Lemma validatePostData_readable (body : JsVal) :
  readable body = true ->
  validatePostData body =
    Normal {| isValid := match all_errors body with [] => true | _ => false end;
              errors := all_errors body |}.
Proof.
  intros R. unfold validatePostData.
  rewrite !(get_prop_readable body _ R).
  unfold all_errors, title_errors, content_errors, status_errors.
  cbv zeta. rewrite list_is_empty.
  destruct (text_missing (field body (lit "title")));
    [|destruct (200 <? trimmed_length (field body (lit "title")))];
    (destruct (text_missing (field body (lit "content")));
     [|destruct (10000 <? trimmed_length (field body (lit "content")))]);
    destruct (truthy (field body (lit "status")) &&
              negb (allowed_status (field body (lit "status"))));
    reflexivity.
Qed.

Lemma validatePostData_Normal (body : JsVal) (v : Validation) :
  validatePostData body = Normal v ->
  readable body = true /\
  errors v = all_errors body /\
  isValid v = match all_errors body with [] => true | _ => false end.
Proof.
  destruct (readable body) eqn:R.
  - rewrite (validatePostData_readable body R).
    intros E; injection E as <-; auto.
  - unfold validatePostData.
    destruct (get_prop_unreadable body (lit "title") R) as [e ->].
    discriminate.
Qed.

(** Null has no properties: the validator throws instead of returning. *)
Lemma validatePostData_unreadable (body : JsVal) :
  readable body = false -> exists e, validatePostData body = Throw e.
Proof.
  intros R. unfold validatePostData.
  destruct (get_prop_unreadable body (lit "title") R) as [e ->]. eauto.
Qed.

(** ** Response bodies *)

Lemma JSON_stringify_strings (l : list jsstring) :
  map (fun x => match x with
                | JUndefined => JNull
                | _ => JSON_stringify x
                end) (map JStr l) = map JStr l.
Proof. induction l as [|s l IH]; simpl; [|rewrite IH]; reflexivity. Qed.

Lemma validation_failed_response_eq (v : Validation) :
  CreatePost.validation_failed_response v =
    {| statusCode := 400;
       headers := json_headers;
       body := JObj [(lit "error", JStr (lit "Validation failed"));
                     (lit "details", JArr (map JStr (errors v)))] |}.
Proof.
  unfold CreatePost.validation_failed_response; cbn [JSON_stringify].
  rewrite JSON_stringify_strings. reflexivity.
Qed.

(** ** CreatePost: the validation gate *)

Section CreatePostFacts.
Context `{JSONRuntime}.
Variables (env : Env) (orc : Oracle).

Lemma handler_parsed (event : APIGatewayProxyEvent) (cand : JsVal)
  (v : Validation) (tbl : Table) :
  JSON_parse (body_or_default event) = Some cand ->
  validatePostData cand = Normal v ->
  CreatePost.handler env orc event tbl =
    if isValid v
    then try_catch (CreatePost.store_post orc cand)
                   (CreatePost.on_error env) tbl
    else (CreatePost.validation_failed_response v, tbl).
Proof.
  intros Hp Hv.
  unfold CreatePost.handler, CreatePost.attempt, try_catch, bind, lift.
  rewrite Hp, Hv. destruct (isValid v); reflexivity.
Qed.

End CreatePostFacts.

(** C1: a candidate that fails validation is answered with status 400 and a
    body carrying every validation message, in order, and the table is left
    as it was, whatever the generator, the clock and the store would have
    done. *)
Theorem create_rejects_invalid_candidate `{JSONRuntime}
  (env : Env) (orc : Oracle) (event : APIGatewayProxyEvent) (tbl : Table)
  (cand : JsVal) (v : Validation) :
  JSON_parse (body_or_default event) = Some cand ->
  validatePostData cand = Normal v ->
  isValid v = false ->
  CreatePost.handler env orc event tbl =
    ({| statusCode := 400;
        headers := json_headers;
        body := JObj [(lit "error", JStr (lit "Validation failed"));
                      (lit "details", JArr (map JStr (errors v)))] |}, tbl)
  /\ errors v = all_errors cand
  /\ errors v <> [].
Proof.
  intros Hp Hv Hi.
  rewrite (handler_parsed env orc event cand v tbl Hp Hv), Hi.
  destruct (validatePostData_Normal cand v Hv) as (_ & He & Hb).
  repeat split.
  - rewrite validation_failed_response_eq. reflexivity.
  - exact He.
  - rewrite He. rewrite Hi in Hb. destruct (all_errors cand); easy.
Qed.

Lemma create_rejects_invalid_candidate_witness :
  @CreatePost.handler sample_runtime production (calm an_id jan_1)
    (request rejected_text) feed_table =
    ({| statusCode := 400;
        headers := json_headers;
        body := JObj [(lit "error", JStr (lit "Validation failed"));
                      (lit "details",
                       JArr [JStr msg_title_required;
                             JStr msg_content_required;
                             JStr msg_status_invalid])] |}, feed_table).
Proof.
  destruct (@create_rejects_invalid_candidate sample_runtime production
              (calm an_id jan_1) (request rejected_text) feed_table
              rejected_value
              {| isValid := false;
                 errors := [msg_title_required; msg_content_required;
                            msg_status_invalid] |})
    as (Hrun & _); [reflexivity..|].
  exact Hrun.
Defined.

(** ** CreatePost: the write *)

Lemma text_rule_passes (bound : Z) (v : JsVal) :
  text_missing v = false ->
  (bound <? trimmed_length v) = false ->
  exists s, v = JStr s /\ 0 < js_length (trim s) <= bound.
Proof.
  unfold text_missing. destruct v as [| | | |s| |]; simpl;
    rewrite ?orb_true_r, ?orb_true_l; try discriminate.
  destruct (js_length s =? 0); simpl; [discriminate|].
  intros M L. exists s. split; [reflexivity|].
  apply Z.eqb_neq in M. apply Z.ltb_ge in L.
  unfold js_length in *. lia.
Qed.

Lemma no_errors_fields (cand : JsVal) :
  all_errors cand = [] ->
  (exists t, field cand (lit "title") = JStr t /\
             0 < js_length (trim t) <= 200) /\
  (exists c, field cand (lit "content") = JStr c /\
             0 < js_length (trim c) <= 10000) /\
  (truthy (field cand (lit "status")) = false \/
   field cand (lit "status") = JStr (lit "draft") \/
   field cand (lit "status") = JStr (lit "published")).
Proof.
  unfold all_errors, title_errors, content_errors, status_errors.
  intros E. apply app_eq_nil in E as [Et E]. apply app_eq_nil in E as [Ec Es].
  split; [|split].
  - destruct (text_missing (field cand (lit "title"))) eqn:M;
      [discriminate|].
    destruct (200 <? _) eqn:L in Et; [discriminate|].
    apply text_rule_passes; assumption.
  - destruct (text_missing (field cand (lit "content"))) eqn:M;
      [discriminate|].
    destruct (10000 <? _) eqn:L in Ec; [discriminate|].
    apply text_rule_passes; assumption.
  - destruct (truthy (field cand (lit "status"))) eqn:T; [|auto].
    right. cbn [andb] in Es. unfold allowed_status in Es.
    destruct (field cand (lit "status")) as [| | | |s| |];
      cbn [negb] in Es; try discriminate.
    destruct (str_eqb (lit "draft") s) eqn:D.
    + apply str_eqb_eq in D. subst s. auto.
    + destruct (str_eqb (lit "published") s) eqn:P; [|discriminate].
      apply str_eqb_eq in P. subst s. auto.
Qed.

Lemma status_value_string (status : JsVal) :
  truthy status = false \/ status = JStr (lit "draft") \/
    status = JStr (lit "published") ->
  exists s, (if truthy status then status else JStr (lit "draft")) = JStr s /\
            (s = lit "draft" \/ s = lit "published").
Proof.
  intros [F | [-> | ->]].
  - rewrite F. eauto.
  - exists (lit "draft"). split; [reflexivity|auto].
  - exists (lit "published"). split; [reflexivity|auto].
Qed.

Lemma post_of_body (orc : Oracle) (t c : jsstring) (status : JsVal) :
  truthy status = false \/ status = JStr (lit "draft") \/
    status = JStr (lit "published") ->
  body (CreatePost.created_response (post_of orc t c status)) =
    JObj (post_of orc t c status).
Proof.
  intros Hs. destruct (status_value_string status Hs) as (s & Es & _).
  unfold CreatePost.created_response, post_of. rewrite Es. reflexivity.
Qed.

Lemma post_of_key (orc : Oracle) (t c : jsstring) (status : JsVal) :
  primary_key (post_of orc t c status) = Some (uuidv4 orc, toISOString orc).
Proof. reflexivity. Qed.

Lemma post_of_has_postId (orc : Oracle) (t c : jsstring) (status : JsVal) :
  has_attr (post_of orc t c status) (lit "postId") = true.
Proof. reflexivity. Qed.

(** What the statements after the validation gate do with a candidate whose
    title and content are strings. *)
Lemma store_post_run (orc : Oracle) (cand : JsVal) (t c : jsstring)
  (tbl : Table) :
  readable cand = true ->
  field cand (lit "title") = JStr t ->
  field cand (lit "content") = JStr c ->
  let post := post_of orc t c (field cand (lit "status")) in
  let key := (uuidv4 orc, toISOString orc) in
  CreatePost.store_post orc cand tbl =
    match store_fault orc with
    | Some e => (Throw e, tbl)
    | None =>
        if condition_holds (attribute_not_exists (lit "postId")) (tbl !! key)
        then (Normal (CreatePost.created_response post), <[key := post]> tbl)
        else (Throw ConditionalCheckFailedException, tbl)
    end.
Proof.
  intros R Et Ec post key.
  unfold CreatePost.store_post, bind, lift, ret.
  rewrite !(get_prop_readable cand _ R), Et, Ec.
  cbn [call_sanitizeInput].
  unfold send_put. cbn [put_Item ConditionExpression].
  fold (post_of orc t c (field cand (lit "status"))). fold post.
  destruct (store_fault orc); [reflexivity|].
  unfold post at 1. rewrite post_of_key. fold key.
  destruct (condition_holds _ _); reflexivity.
Qed.

Lemma on_error_conflict (env : Env) (message : jsstring) :
  CreatePost.on_error env
    (ErrorObject (lit "ConditionalCheckFailedException") message)
  = CreatePost.conflict_response.
Proof. reflexivity. Qed.

Lemma on_error_failure (env : Env) (e : Thrown) :
  CreatePost.is_conditional_check_failed e = false ->
  CreatePost.on_error env e =
    {| statusCode := 500;
       headers := json_headers;
       body := JObj ((lit "error", JStr (lit "Failed to create post"))
                     :: if development_mode env
                        then [(lit "message", JStr (errorMessage e))]
                        else []) |}.
Proof.
  intros E. unfold CreatePost.on_error. rewrite E.
  unfold CreatePost.failure_response, detail_message.
  destruct (development_mode env); reflexivity.
Qed.

Lemma is_conditional_check_failed_spec (e : Thrown) :
  CreatePost.is_conditional_check_failed e = true <->
  exists message,
    e = ErrorObject (lit "ConditionalCheckFailedException") message.
Proof.
  destruct e as [name message|v]; simpl.
  - rewrite str_eqb_eq. split.
    + intros ->. eauto.
    + intros [m E]. injection E as -> _. reflexivity.
  - split; [discriminate|]. intros [m E]. discriminate.
Qed.

Section CreatePostRuns.
Context `{JSONRuntime}.
Variables (env : Env) (orc : Oracle).

(** A candidate that passes validation reaches the store; what happens next
    is decided by the store call alone. *)
Lemma handler_valid (event : APIGatewayProxyEvent) (cand : JsVal)
  (tbl : Table) :
  JSON_parse (body_or_default event) = Some cand ->
  readable cand = true ->
  all_errors cand = [] ->
  exists t c,
    field cand (lit "title") = JStr t /\
    field cand (lit "content") = JStr c /\
    let post := post_of orc t c (field cand (lit "status")) in
    let key := (uuidv4 orc, toISOString orc) in
    CreatePost.handler env orc event tbl =
      match store_fault orc with
      | Some e => (CreatePost.on_error env e, tbl)
      | None =>
          if condition_holds (attribute_not_exists (lit "postId"))
                             (tbl !! key)
          then ({| statusCode := 201;
                   headers := json_headers;
                   body := JObj post |}, <[key := post]> tbl)
          else (CreatePost.conflict_response, tbl)
      end.
Proof.
  intros Hp R E.
  destruct (no_errors_fields cand E) as ((t & Et & _) & (c & Ec & _) & Hs).
  exists t, c. split; [exact Et|]. split; [exact Ec|]. intros post key.
  rewrite (handler_parsed env orc event cand _ tbl Hp
             (validatePostData_readable cand R)).
  cbn [isValid]. rewrite E. unfold try_catch.
  rewrite (store_post_run orc cand t c tbl R Et Ec). fold post key.
  destruct (store_fault orc); [reflexivity|].
  destruct (condition_holds _ _); [|reflexivity].
  f_equal. unfold post.
  rewrite <- (post_of_body orc t c _ Hs). reflexivity.
Qed.

Lemma handler_invalid (event : APIGatewayProxyEvent) (cand : JsVal)
  (tbl : Table) :
  JSON_parse (body_or_default event) = Some cand ->
  readable cand = true ->
  all_errors cand <> [] ->
  CreatePost.handler env orc event tbl =
    ({| statusCode := 400;
        headers := json_headers;
        body := JObj [(lit "error", JStr (lit "Validation failed"));
                      (lit "details", JArr (map JStr (all_errors cand)))] |},
     tbl).
Proof.
  intros Hp R E.
  rewrite (handler_parsed env orc event cand _ tbl Hp
             (validatePostData_readable cand R)).
  assert (match all_errors cand with [] => true | _ => false end = false)
    as Hv by (destruct (all_errors cand); congruence).
  cbn [isValid]. rewrite Hv, validation_failed_response_eq. reflexivity.
Qed.

End CreatePostRuns.

(** ** CreatePost: claims *)

(** C3, as the code has it: a successful CreatePost answers 201 with the post
    it wrote, an object of exactly six members: [postId] and [createdAt]
    from the generator and the clock, the sanitized [title] and [content],
    [status] (the candidate's, or [draft] when it has none) and [updatedAt]
    equal to [createdAt]. The handler never reads [tags]: the post has no
    such member. *)
Theorem create_returns_built_post `{JSONRuntime}
  (env : Env) (orc : Oracle) (event : APIGatewayProxyEvent) (tbl : Table)
  (cand : JsVal) (v : Validation) :
  JSON_parse (body_or_default event) = Some cand ->
  validatePostData cand = Normal v ->
  isValid v = true ->
  store_fault orc = None ->
  tbl !! (uuidv4 orc, toISOString orc) = None ->
  exists title content status,
    field cand (lit "title") = JStr title /\
    field cand (lit "content") = JStr content /\
    (if truthy (field cand (lit "status"))
     then field cand (lit "status") else JStr (lit "draft")) = JStr status /\
    (status = lit "draft" \/ status = lit "published") /\
    let post :=
      [(lit "postId", JStr (uuidv4 orc));
       (lit "createdAt", JStr (toISOString orc));
       (lit "title", JStr (sanitizeInput title));
       (lit "content", JStr (sanitizeInput content));
       (lit "status", JStr status);
       (lit "updatedAt", JStr (toISOString orc))] in
    CreatePost.handler env orc event tbl =
      ({| statusCode := 201; headers := json_headers; body := JObj post |},
       <[(uuidv4 orc, toISOString orc) := post]> tbl) /\
    field (JObj post) (lit "tags") = JUndefined.
Proof.
  intros Hp Hv Hi Hf Hk.
  destruct (validatePostData_Normal cand v Hv) as (R & _ & Hb).
  rewrite Hi in Hb.
  assert (all_errors cand = []) as E by (destruct (all_errors cand); easy).
  destruct (handler_valid env orc event cand tbl Hp R E)
    as (t & c & Et & Ec & Hrun).
  destruct (no_errors_fields cand E) as (_ & _ & Hs).
  destruct (status_value_string _ Hs) as (s & Es & Hs').
  exists t, c, s. repeat (split; [assumption|]).
  cbv zeta in *. rewrite Hf, Hk in Hrun. cbn [condition_holds] in Hrun.
  unfold post_of in Hrun. rewrite Es in Hrun.
  split; [exact Hrun|reflexivity].
Qed.

Lemma create_returns_built_post_witness :
  @JSON_parse sample_runtime (body_or_default (request hello_text))
    = Some hello_value /\
  fst (@CreatePost.handler sample_runtime production (calm an_id jan_1)
         (request hello_text) ∅) =
    {| statusCode := 201;
       headers := json_headers;
       body := JObj [(lit "postId", JStr (lit an_id));
                     (lit "createdAt", JStr (lit jan_1));
                     (lit "title", JStr (lit "Hi bthere/b"));
                     (lit "content", JStr (lit "Body & istuff/i"));
                     (lit "status", JStr (lit "draft"));
                     (lit "updatedAt", JStr (lit jan_1))] |}.
Proof.
  split; [reflexivity|].
  destruct (@create_returns_built_post sample_runtime production
              (calm an_id jan_1) (request hello_text) ∅ hello_value
              {| isValid := true; errors := [] |})
    as (t & c & s & Et & Ec & Es & _ & Hrun & _);
    [reflexivity | reflexivity | reflexivity | reflexivity
    | vm_compute; reflexivity | ].
  rewrite Hrun.
  injection Et as <-. injection Ec as <-. injection Es as <-.
  reflexivity.
Defined.

(** C3 as stated fails: a candidate with [tags] is created, and the answer
    has no [tags] member. *)
Lemma create_drops_tags :
  @JSON_parse sample_runtime (body_or_default (request tagged_text))
    = Some tagged_value /\
  field tagged_value (lit "tags") = JArr [JStr (lit "a")] /\
  statusCode (fst (@CreatePost.handler sample_runtime production
                     (calm an_id jan_1) (request tagged_text) ∅)) = 201 /\
  field (body (fst (@CreatePost.handler sample_runtime production
                      (calm an_id jan_1) (request tagged_text) ∅)))
        (lit "tags") = JUndefined.
Proof. vm_compute. repeat split. Qed.

Lemma trimStart_length (s : jsstring) :
  (length (trimStart s) <= length s)%nat.
Proof.
  destruct (trimStart_suffix s) as [p Hp].
  rewrite Hp at 2. rewrite length_app. lia.
Qed.

Lemma trim_length (s : jsstring) : js_length (trim s) <= js_length s.
Proof.
  unfold js_length, trim, trimEnd. rewrite length_rev.
  pose proof (trimStart_length (rev (trimStart s))) as H1.
  rewrite length_rev in H1.
  pose proof (trimStart_length s). lia.
Qed.

(** The "required" rule fires exactly on values that are not strings or are
    empty once trimmed. *)
Lemma text_missing_spec (v : JsVal) :
  text_missing v = false <->
  exists s, v = JStr s /\ 0 < js_length (trim s).
Proof.
  split.
  - intros M. destruct (text_rule_passes (trimmed_length v) v M)
      as (s & -> & Hs); [apply Z.ltb_irrefl|]. exists s. split; [easy|lia].
  - intros (s & -> & Hs). unfold text_missing. simpl.
    pose proof (trim_length s).
    destruct (js_length s =? 0) eqn:E0; [apply Z.eqb_eq in E0; lia|].
    destruct (js_length (trim s) =? 0) eqn:E1; [apply Z.eqb_eq in E1; lia|].
    reflexivity.
Qed.

Lemma field_string_readable (o : JsVal) (k s : jsstring) :
  field o k = JStr s -> readable o = true.
Proof. destruct o; simpl; try discriminate; reflexivity. Qed.

Lemma In_all_errors (cand : JsVal) (m : jsstring) :
  In m (all_errors cand) <->
  In m (title_errors (field cand (lit "title"))) \/
  In m (content_errors (field cand (lit "content"))) \/
  In m (status_errors (field cand (lit "status"))).
Proof. unfold all_errors. rewrite !in_app_iff. reflexivity. Qed.

(** C4: the bounds are inclusive. With a title of trimmed length 200 and a
    content of trimmed length 10,000 (and no status complaint) validation
    passes and, when the store accepts the write, the post is created; a
    title of trimmed length 201, or a content of trimmed length 10,001, is
    rejected with its length message and nothing is written. *)
Theorem length_bounds_inclusive `{JSONRuntime}
  (env : Env) (orc : Oracle) (event : APIGatewayProxyEvent) (tbl : Table)
  (cand : JsVal) (title content : jsstring) :
  JSON_parse (body_or_default event) = Some cand ->
  field cand (lit "title") = JStr title ->
  field cand (lit "content") = JStr content ->
  (js_length (trim title) = 200 ->
   js_length (trim content) = 10000 ->
   status_errors (field cand (lit "status")) = [] ->
   validatePostData cand = Normal {| isValid := true; errors := [] |} /\
   (store_fault orc = None ->
    tbl !! (uuidv4 orc, toISOString orc) = None ->
    CreatePost.handler env orc event tbl =
      ({| statusCode := 201;
          headers := json_headers;
          body := JObj (post_of orc title content
                          (field cand (lit "status"))) |},
       <[(uuidv4 orc, toISOString orc) :=
           post_of orc title content (field cand (lit "status"))]> tbl))) /\
  (js_length (trim title) = 201 ->
   exists v, validatePostData cand = Normal v /\ isValid v = false /\
             In msg_title_too_long (errors v) /\
             CreatePost.handler env orc event tbl =
               ({| statusCode := 400;
                   headers := json_headers;
                   body := JObj [(lit "error", JStr (lit "Validation failed"));
                                 (lit "details", JArr (map JStr (errors v)))]
                |}, tbl)) /\
  (js_length (trim content) = 10001 ->
   exists v, validatePostData cand = Normal v /\ isValid v = false /\
             In msg_content_too_long (errors v) /\
             CreatePost.handler env orc event tbl =
               ({| statusCode := 400;
                   headers := json_headers;
                   body := JObj [(lit "error", JStr (lit "Validation failed"));
                                 (lit "details", JArr (map JStr (errors v)))]
                |}, tbl)).
Proof.
  intros Hp Et Ec.
  pose proof (field_string_readable _ _ _ Et) as R.
  pose proof (validatePostData_readable cand R) as Hv.
  assert (forall n, 0 < n -> js_length (trim title) = n ->
            text_missing (JStr title) = false) as Mt.
  { intros n Hn Hl. apply text_missing_spec. exists title. split; [easy|lia]. }
  assert (forall n, 0 < n -> js_length (trim content) = n ->
            text_missing (JStr content) = false) as Mc.
  { intros n Hn Hl. apply text_missing_spec. exists content.
    split; [easy|lia]. }
  split; [|split].
  - intros Lt Lc Es.
    assert (all_errors cand = []) as E.
    { unfold all_errors, title_errors, content_errors.
      rewrite Et, Ec, Es, (Mt 200), (Mc 10000) by lia.
      cbn [trimmed_length]. rewrite Lt, Lc. reflexivity. }
    rewrite E in Hv. split; [exact Hv|]. intros Hf Hk.
    destruct (handler_valid env orc event cand tbl Hp R E)
      as (t & c & Et' & Ec' & Hrun).
    rewrite Et in Et'. injection Et' as <-.
    rewrite Ec in Ec'. injection Ec' as <-.
    cbv zeta in Hrun. rewrite Hf, Hk in Hrun. exact Hrun.
  - intros Lt.
    assert (In msg_title_too_long (all_errors cand)) as Hin.
    { apply In_all_errors. left. unfold title_errors.
      rewrite Et, (Mt 201) by lia. cbn [trimmed_length]. rewrite Lt.
      left. reflexivity. }
    eexists. split; [exact Hv|]. cbn [isValid errors].
    assert (match all_errors cand with [] => true | _ => false end = false)
      as Hi by (destruct (all_errors cand); [destruct Hin|reflexivity]).
    split; [exact Hi|]. split; [exact Hin|].
    rewrite (handler_parsed env orc event cand _ tbl Hp Hv).
    cbn [isValid]. rewrite Hi, validation_failed_response_eq. reflexivity.
  - intros Lc.
    assert (In msg_content_too_long (all_errors cand)) as Hin.
    { apply In_all_errors. right. left. unfold content_errors.
      rewrite Ec, (Mc 10001) by lia. cbn [trimmed_length]. rewrite Lc.
      left. reflexivity. }
    eexists. split; [exact Hv|]. cbn [isValid errors].
    assert (match all_errors cand with [] => true | _ => false end = false)
      as Hi by (destruct (all_errors cand); [destruct Hin|reflexivity]).
    split; [exact Hi|]. split; [exact Hin|].
    rewrite (handler_parsed env orc event cand _ tbl Hp Hv).
    cbn [isValid]. rewrite Hi, validation_failed_response_eq. reflexivity.
Qed.

Lemma length_bounds_inclusive_witness :
  statusCode (fst (@CreatePost.handler sample_runtime production
                     (calm an_id jan_1) (request boundary_text) ∅)) = 201 /\
  statusCode (fst (@CreatePost.handler sample_runtime production
                     (calm an_id jan_1) (request long_title_text) ∅)) = 400 /\
  statusCode (fst (@CreatePost.handler sample_runtime production
                     (calm an_id jan_1) (request long_content_text) ∅)) = 400.
Proof.
  split; [|split].
  - destruct (@length_bounds_inclusive sample_runtime production
                (calm an_id jan_1) (request boundary_text) ∅ boundary_value
                (letters 200) (letters 10000))
      as (Hok & _ & _); [vm_compute; reflexivity | reflexivity..|].
    destruct Hok as (_ & Hrun);
      [vm_compute; reflexivity | vm_compute; reflexivity | reflexivity|].
    rewrite Hrun; [reflexivity | reflexivity | vm_compute; reflexivity].
  - destruct (@length_bounds_inclusive sample_runtime production
                (calm an_id jan_1) (request long_title_text) ∅
                long_title_value (letters 201) (lit "Body"))
      as (_ & Hlong & _); [vm_compute; reflexivity | reflexivity..|].
    destruct Hlong as (v & _ & _ & _ & Hrun); [vm_compute; reflexivity|].
    rewrite Hrun. reflexivity.
  - destruct (@length_bounds_inclusive sample_runtime production
                (calm an_id jan_1) (request long_content_text) ∅
                long_content_value (lit "Notes") (letters 10001))
      as (_ & _ & Hlong); [vm_compute; reflexivity | reflexivity..|].
    destruct Hlong as (v & _ & _ & _ & Hrun); [vm_compute; reflexivity|].
    rewrite Hrun. reflexivity.
Defined.

(** C7, as the code has it: a candidate whose title is missing, not a
    string, or empty once trimmed is rejected with status 400; the first
    message of the list is the code's title message, "Title is required and
    must be a non-empty string"; the table is not touched. *)
Theorem create_requires_title `{JSONRuntime}
  (env : Env) (orc : Oracle) (event : APIGatewayProxyEvent) (tbl : Table)
  (cand : JsVal) :
  JSON_parse (body_or_default event) = Some cand ->
  readable cand = true ->
  text_missing (field cand (lit "title")) = true ->
  exists rest,
    validatePostData cand =
      Normal {| isValid := false;
                errors := lit "Title is required and must be a non-empty string"
                          :: rest |} /\
    CreatePost.handler env orc event tbl =
      ({| statusCode := 400;
          headers := json_headers;
          body := JObj [(lit "error", JStr (lit "Validation failed"));
                        (lit "details",
                         JArr (map JStr
                           (lit "Title is required and must be a non-empty string"
                            :: rest)))] |}, tbl).
Proof.
  intros Hp R M.
  assert (exists rest, all_errors cand = msg_title_required :: rest)
    as [rest E].
  { unfold all_errors, title_errors. rewrite M. simpl. eauto. }
  exists rest. fold msg_title_required. split.
  - rewrite (validatePostData_readable cand R), E. reflexivity.
  - rewrite (handler_invalid env orc event cand tbl Hp R), E;
      [reflexivity|]. rewrite E. discriminate.
Qed.

Lemma create_requires_title_witness :
  fst (@CreatePost.handler sample_runtime production (calm an_id jan_1)
         (request untitled_text) ∅) =
    {| statusCode := 400;
       headers := json_headers;
       body := JObj [(lit "error", JStr (lit "Validation failed"));
                     (lit "details",
                      JArr [JStr (lit "Title is required and must be a non-empty string")])]
    |}.
Proof.
  destruct (@create_requires_title sample_runtime production
              (calm an_id jan_1) (request untitled_text) ∅ untitled_value)
    as (rest & Hv & Hrun); [reflexivity..|].
  rewrite Hrun. injection Hv as <-. reflexivity.
Defined.

(** C7 as stated fails on the wording of the message: the list a missing
    title produces does not contain the text "title required". *)
Lemma title_message_is_not_title_required :
  text_missing (field untitled_value (lit "title")) = true /\
  validatePostData untitled_value =
    Normal {| isValid := false;
              errors :=
                [lit "Title is required and must be a non-empty string"] |} /\
  ~ In (lit "title required")
       [lit "Title is required and must be a non-empty string"].
Proof.
  split; [reflexivity|]. split; [reflexivity|].
  intros [E|[]]. discriminate E.
Qed.

(** C9: with no body ([null]) or an empty one, the handler parses [{}],
    validation reports the two "required" messages, and the answer is the
    400 validation failure, not the "Invalid JSON" answer; the table is not
    touched. *)
Theorem create_without_body `{JSONRuntime}
  (env : Env) (orc : Oracle) (event : APIGatewayProxyEvent) (tbl : Table) :
  event_body event = None \/ event_body event = Some [] ->
  CreatePost.handler env orc event tbl =
    ({| statusCode := 400;
        headers := json_headers;
        body := JObj [(lit "error", JStr (lit "Validation failed"));
                      (lit "details",
                       JArr [JStr msg_title_required;
                             JStr msg_content_required])] |}, tbl) /\
  fst (CreatePost.handler env orc event tbl)
    <> CreatePost.invalid_json_response.
Proof.
  intros Hb.
  assert (body_or_default event = lit "{}") as Eb.
  { unfold body_or_default. destruct Hb as [-> | ->]; reflexivity. }
  assert (CreatePost.handler env orc event tbl =
    ({| statusCode := 400;
        headers := json_headers;
        body := JObj [(lit "error", JStr (lit "Validation failed"));
                      (lit "details",
                       JArr [JStr msg_title_required;
                             JStr msg_content_required])] |}, tbl)) as Hrun.
  { rewrite (handler_invalid env orc event (JObj []) tbl);
      [reflexivity | | reflexivity | discriminate].
    rewrite Eb. apply JSON_parse_empty_object. }
  split; [exact Hrun|]. rewrite Hrun. discriminate.
Qed.

Lemma create_without_body_witness :
  fst (@CreatePost.handler sample_runtime production (calm an_id jan_1)
         {| event_body := None |} ∅) =
    {| statusCode := 400;
       headers := json_headers;
       body := JObj [(lit "error", JStr (lit "Validation failed"));
                     (lit "details",
                      JArr [JStr msg_title_required;
                            JStr msg_content_required])] |}.
Proof.
  destruct (@create_without_body sample_runtime production
              (calm an_id jan_1) {| event_body := None |} ∅) as [Hrun _];
    [left; reflexivity|].
  rewrite Hrun. reflexivity.
Defined.

Lemma status_message_only_from_status_rule (cand : JsVal) :
  In msg_status_invalid (all_errors cand) <->
  truthy (field cand (lit "status")) = true /\
  allowed_status (field cand (lit "status")) = false.
Proof.
  rewrite In_all_errors. unfold title_errors, content_errors, status_errors.
  split.
  - intros [Ht | [Hc | Hs]].
    + destruct (text_missing _); [|destruct (200 <? _)];
        try destruct Ht as [E|[]]; try destruct Ht;
        vm_compute in E; discriminate.
    + destruct (text_missing _); [|destruct (10000 <? _)];
        try destruct Hc as [E|[]]; try destruct Hc;
        vm_compute in E; discriminate.
    + destruct (truthy _); [|destruct Hs].
      destruct (allowed_status _); [destruct Hs|]. auto.
  - intros [-> ->]. right. right. left. reflexivity.
Qed.

(** C10: the status rule only looks at truthy values. A falsy [status] (the
    empty string, [0], [false], [null], as well as an absent one) never
    yields the status message, and the post is written with status [draft];
    the status message appears exactly when [status] is truthy and is
    neither the string [draft] nor the string [published]. *)
Theorem falsy_status_is_draft `{JSONRuntime}
  (env : Env) (orc : Oracle) (event : APIGatewayProxyEvent) (tbl : Table)
  (cand : JsVal) :
  JSON_parse (body_or_default event) = Some cand ->
  readable cand = true ->
  exists v,
    validatePostData cand = Normal v /\
    (In msg_status_invalid (errors v) <->
     truthy (field cand (lit "status")) = true /\
     allowed_status (field cand (lit "status")) = false) /\
    (truthy (field cand (lit "status")) = false ->
     ~ In msg_status_invalid (errors v) /\
     (isValid v = true ->
      store_fault orc = None ->
      tbl !! (uuidv4 orc, toISOString orc) = None ->
      exists title content,
        field cand (lit "title") = JStr title /\
        field cand (lit "content") = JStr content /\
        let post :=
          [(lit "postId", JStr (uuidv4 orc));
           (lit "createdAt", JStr (toISOString orc));
           (lit "title", JStr (sanitizeInput title));
           (lit "content", JStr (sanitizeInput content));
           (lit "status", JStr (lit "draft"));
           (lit "updatedAt", JStr (toISOString orc))] in
        CreatePost.handler env orc event tbl =
          ({| statusCode := 201; headers := json_headers;
              body := JObj post |},
           <[(uuidv4 orc, toISOString orc) := post]> tbl))) /\
    (truthy (JStr []) = false /\ truthy (JNum 0%float) = false /\
     truthy (JNum (-0)%float) = false /\ truthy (JBool false) = false /\
     truthy JNull = false /\ truthy JUndefined = false).
Proof.
  intros Hp R. eexists. split; [apply (validatePostData_readable cand R)|].
  cbn [errors isValid].
  split; [apply status_message_only_from_status_rule|].
  split; [|repeat split].
  intros F. split.
  - rewrite status_message_only_from_status_rule, F. intros [? _]; discriminate.
  - intros Hi Hf Hk.
    assert (all_errors cand = []) as E by (destruct (all_errors cand); easy).
    destruct (handler_valid env orc event cand tbl Hp R E)
      as (t & c & Et & Ec & Hrun).
    exists t, c. repeat (split; [assumption|]).
    cbv zeta in *. rewrite Hf, Hk in Hrun. cbn [condition_holds] in Hrun.
    unfold post_of in Hrun. rewrite F in Hrun. exact Hrun.
Qed.

Lemma falsy_status_is_draft_witness :
  field zero_status_value (lit "status") = JNum 0%float /\
  fst (@CreatePost.handler sample_runtime production (calm an_id jan_1)
         (request zero_status_text) ∅) =
    {| statusCode := 201;
       headers := json_headers;
       body := JObj [(lit "postId", JStr (lit an_id));
                     (lit "createdAt", JStr (lit jan_1));
                     (lit "title", JStr (lit "Notes"));
                     (lit "content", JStr (lit "Body"));
                     (lit "status", JStr (lit "draft"));
                     (lit "updatedAt", JStr (lit jan_1))] |}.
Proof.
  split; [reflexivity|].
  destruct (@falsy_status_is_draft sample_runtime production
              (calm an_id jan_1) (request zero_status_text) ∅
              zero_status_value)
    as (v & Hv & _ & Hfalsy & _); [reflexivity..|].
  injection Hv as <-.
  destruct Hfalsy as [_ Hrun]; [reflexivity|].
  destruct Hrun as (t & c & Et & Ec & Hrun);
    [reflexivity | reflexivity | vm_compute; reflexivity|].
  rewrite Hrun. injection Et as <-. injection Ec as <-. reflexivity.
Defined.

(** ** The table and the conditional write *)

Lemma table_wf_empty : table_wf ∅.
Proof. intros k item E. rewrite lookup_empty in E. discriminate. Qed.

Lemma table_wf_insert (t : Table) (k : jsstring * jsstring) (item : Item) :
  table_wf t -> primary_key item = Some k -> table_wf (<[k := item]> t).
Proof.
  intros W K k' item' E. destruct (decide (k = k')) as [<-|N].
  - rewrite lookup_insert_eq in E. injection E as <-. exact K.
  - rewrite lookup_insert_ne in E by exact N. apply (W _ _ E).
Qed.

Lemma table_wf_table_of (items : list Item) : table_wf (table_of items).
Proof.
  induction items as [|item items IH]; simpl; [apply table_wf_empty|].
  destruct (primary_key item) eqn:K; [|exact IH].
  apply table_wf_insert; assumption.
Qed.

Lemma own_prop_has_attr (item : Item) (k s : jsstring) :
  own_prop item k = JStr s -> has_attr item k = true.
Proof.
  induction item as [|[k' v] item IH]; simpl; [discriminate|].
  destruct (str_eqb k' k); [reflexivity|exact IH].
Qed.

(** On a well-formed table [attribute_not_exists(postId)] fails exactly
    when an item is stored under the key being written. *)
Lemma condition_on_key (t : Table) (k : jsstring * jsstring) :
  table_wf t ->
  condition_holds (attribute_not_exists (lit "postId")) (t !! k) =
    match t !! k with Some _ => false | None => true end.
Proof.
  intros W. destruct (t !! k) as [item|] eqn:E; [|reflexivity].
  simpl. apply W in E. unfold primary_key, string_attr in E.
  destruct (own_prop item (lit "postId")) eqn:P; try discriminate.
  rewrite (own_prop_has_attr _ _ _ P). reflexivity.
Qed.

Lemma on_error_status (env : Env) (e : Thrown) :
  statusCode (CreatePost.on_error env e) = 409 \/
  statusCode (CreatePost.on_error env e) = 500.
Proof.
  unfold CreatePost.on_error.
  destruct (CreatePost.is_conditional_check_failed e); auto.
Qed.

(** What the conditional write does catch: the condition is evaluated on
    the item stored under the primary key of the new post, the pair of the
    generated [postId] and [createdAt]. If an item is stored under that key,
    or the store reports a [ConditionalCheckFailedException], the answer is
    409 and the table is unchanged; a 201 is only answered when no item was
    stored under that key, and then every item stored before is still
    there. *)
Theorem create_conditional_write `{JSONRuntime}
  (env : Env) (orc : Oracle) (event : APIGatewayProxyEvent) (tbl : Table)
  (cand : JsVal) (v : Validation) :
  JSON_parse (body_or_default event) = Some cand ->
  validatePostData cand = Normal v ->
  isValid v = true ->
  table_wf tbl ->
  (store_fault orc = None ->
   is_Some (tbl !! (uuidv4 orc, toISOString orc)) ->
   CreatePost.handler env orc event tbl =
     ({| statusCode := 409;
         headers := json_headers;
         body := JObj [(lit "error",
                        JStr (lit "Post with this ID already exists"))] |},
      tbl)) /\
  (forall message,
   store_fault orc =
     Some (ErrorObject (lit "ConditionalCheckFailedException") message) ->
   CreatePost.handler env orc event tbl =
     ({| statusCode := 409;
         headers := json_headers;
         body := JObj [(lit "error",
                        JStr (lit "Post with this ID already exists"))] |},
      tbl)) /\
  (statusCode (fst (CreatePost.handler env orc event tbl)) = 201 ->
   store_fault orc = None /\
   tbl !! (uuidv4 orc, toISOString orc) = None /\
   forall k item,
     tbl !! k = Some item ->
     snd (CreatePost.handler env orc event tbl) !! k = Some item) /\
  table_wf (snd (CreatePost.handler env orc event tbl)).
Proof.
  intros Hp Hv Hi W.
  destruct (validatePostData_Normal cand v Hv) as (R & _ & Hb).
  rewrite Hi in Hb.
  assert (all_errors cand = []) as E by (destruct (all_errors cand); easy).
  destruct (handler_valid env orc event cand tbl Hp R E)
    as (t & c & Et & Ec & Hrun).
  cbv zeta in Hrun. rewrite (condition_on_key tbl _ W) in Hrun.
  rewrite Hrun. clear Hrun.
  split; [|split; [|split]].
  - intros -> [item ->]. reflexivity.
  - intros message ->. reflexivity.
  - destruct (store_fault orc) as [e|].
    + cbn [fst]. intros S. destruct (on_error_status env e); lia.
    + destruct (tbl !! (uuidv4 orc, toISOString orc)) eqn:K.
      * cbn. discriminate.
      * intros _. split; [reflexivity|]. split; [reflexivity|].
        intros k item Hk. cbn [snd]. rewrite lookup_insert_ne; [exact Hk|].
        intros <-. rewrite K in Hk. discriminate.
  - destruct (store_fault orc) as [e|]; [exact W|].
    destruct (tbl !! (uuidv4 orc, toISOString orc)); [exact W|].
    cbn [snd]. apply table_wf_insert; [exact W|]. apply post_of_key.
Qed.

Lemma create_conditional_write_witness :
  table_of [stored_post an_id jan_1 "First" "published"]
    !! (lit an_id, lit jan_1)
    = Some (stored_post an_id jan_1 "First" "published") /\
  @CreatePost.handler sample_runtime production (calm an_id jan_1)
    (request hello_text)
    (table_of [stored_post an_id jan_1 "First" "published"]) =
    ({| statusCode := 409;
        headers := json_headers;
        body := JObj [(lit "error",
                       JStr (lit "Post with this ID already exists"))] |},
     table_of [stored_post an_id jan_1 "First" "published"]).
Proof.
  split; [vm_compute; reflexivity|].
  destruct (@create_conditional_write sample_runtime production
              (calm an_id jan_1) (request hello_text)
              (table_of [stored_post an_id jan_1 "First" "published"])
              hello_value {| isValid := true; errors := [] |})
    as (Hreject & _);
    [reflexivity | reflexivity | reflexivity | apply table_wf_table_of |].
  apply Hreject; [reflexivity|].
  exists (stored_post an_id jan_1 "First" "published").
  vm_compute; reflexivity.
Defined.

(** C6: the guard misses the collision it is written for. The handler
    guards the write with [attribute_not_exists(postId)] "to prevent
    overwriting existing posts with same ID" and answers a rejected write
    with "Post with this ID already exists"; but the table's key has the
    sort key [createdAt], so when the generator returns the [postId] of a
    post created at another instant the condition is evaluated on no item,
    the write is accepted with a 201, and two posts carry the same
    [postId]. *)
Lemma same_id_at_another_instant_is_written :
  table_of [stored_post an_id jan_1 "First" "published"]
    !! (lit an_id, lit jan_1)
    = Some (stored_post an_id jan_1 "First" "published") /\
  string_attr (stored_post an_id jan_1 "First" "published") (lit "postId")
    = Some (uuidv4 (calm an_id jan_2)) /\
  statusCode (fst (@CreatePost.handler sample_runtime production
                     (calm an_id jan_2) (request hello_text)
                     (table_of [stored_post an_id jan_1 "First" "published"])))
    = 201 /\
  map (fun item => string_attr item (lit "postId"))
      (table_items
         (snd (@CreatePost.handler sample_runtime production
                 (calm an_id jan_2) (request hello_text)
                 (table_of [stored_post an_id jan_1 "First" "published"]))))
    = [Some (lit an_id); Some (lit an_id)].
Proof. vm_compute. repeat split. Qed.

(** ** The status index *)

Lemma before_total (forward : bool) (a b : Item) :
  precedes forward a b \/ precedes forward b a.
Proof.
  unfold precedes, before. destruct forward; apply str_leb_total.
Qed.

Lemma before_trans (forward : bool) (a b c : Item) :
  precedes forward a b -> precedes forward b c -> precedes forward a c.
Proof.
  unfold precedes, before. destruct forward; intros H1 H2.
  - exact (str_leb_trans _ _ _ H1 H2).
  - exact (str_leb_trans _ _ _ H2 H1).
Qed.

Lemma index_insert_In (forward : bool) (x y : Item) (l : list Item) :
  In y (index_insert forward x l) <-> y = x \/ In y l.
Proof.
  induction l as [|z l IH]; simpl.
  - intuition congruence.
  - destruct (before forward x z); simpl; rewrite ?IH; intuition congruence.
Qed.

Lemma index_insert_sorted (forward : bool) (x : Item) (l : list Item) :
  StronglySorted (precedes forward) l ->
  StronglySorted (precedes forward) (index_insert forward x l).
Proof.
  induction 1 as [|z l Hl IH Hz]; simpl.
  - constructor; constructor.
  - destruct (before forward x z) eqn:B.
    + constructor; [constructor; assumption|].
      constructor; [exact B|].
      eapply Forall_impl; [exact Hz|].
      intros w Hw. exact (before_trans forward x z w B Hw).
    + constructor; [exact IH|].
      apply List.Forall_forall. intros w Hw.
      apply index_insert_In in Hw as [->|Hw].
      * destruct (before_total forward z x) as [T|T]; [exact T|].
        unfold precedes in T. congruence.
      * rewrite List.Forall_forall in Hz. apply Hz, Hw.
Qed.

Lemma index_sort_sorted (forward : bool) (l : list Item) :
  StronglySorted (precedes forward) (index_sort forward l).
Proof.
  induction l as [|x l IH]; simpl; [constructor|].
  apply index_insert_sorted, IH.
Qed.

Lemma index_sort_In (forward : bool) (y : Item) (l : list Item) :
  In y (index_sort forward l) <-> In y l.
Proof.
  induction l as [|x l IH]; simpl; [reflexivity|].
  rewrite index_insert_In, IH. intuition congruence.
Qed.

Lemma index_insert_length (forward : bool) (x : Item) (l : list Item) :
  length (index_insert forward x l) = S (length l).
Proof.
  induction l as [|z l IH]; simpl; [reflexivity|].
  destruct (before forward x z); simpl; [|rewrite IH]; reflexivity.
Qed.

Lemma index_sort_length (forward : bool) (l : list Item) :
  length (index_sort forward l) = length l.
Proof.
  induction l as [|x l IH]; simpl; [reflexivity|].
  rewrite index_insert_length, IH. reflexivity.
Qed.


Lemma In_firstn {A} (n : nat) (l : list A) (x : A) :
  In x (firstn n l) -> In x l.
Proof.
  intros Hx. rewrite <- (firstn_skipn n l). apply in_or_app. auto.
Qed.

Lemma In_table_items (t : Table) (item : Item) :
  In item (table_items t) <-> exists k, t !! k = Some item.
Proof.
  unfold table_items. rewrite <- list_elem_of_In, list_elem_of_fmap. split.
  - intros ([k i] & -> & Hi). apply elem_of_map_to_list in Hi. eauto.
  - intros [k Hk]. exists (k, item). split; [reflexivity|].
    apply elem_of_map_to_list. exact Hk.
Qed.

Lemma in_partition_spec (s : jsstring) (item : Item) :
  in_partition s item = true <->
  string_attr item (lit "status") = Some s /\
  exists c, string_attr item (lit "createdAt") = Some c.
Proof.
  unfold in_partition.
  destruct (string_attr item (lit "status")) as [s'|];
    [destruct (string_attr item (lit "createdAt")) as [c|]|].
  - rewrite str_eqb_eq. split.
    + intros ->. eauto.
    + intros [E _]. congruence.
  - split; [discriminate|]. intros [_ [c E]]. discriminate.
  - split; [discriminate|]. intros [E _]. discriminate.
Qed.

(** ** Bodies of ListPosts *)

Lemma JSON_stringify_member (k : jsstring) (v : JsVal)
  (rest : list (jsstring * JsVal)) :
  JSON_stringify (JObj ((k, v) :: rest)) =
    JObj (match v with
          | JUndefined => members_of (JSON_stringify (JObj rest))
          | _ => (k, JSON_stringify v)
                   :: members_of (JSON_stringify (JObj rest))
          end).
Proof. destruct v; reflexivity. Qed.

(** Serialization keeps string members. *)
Lemma JSON_stringify_string_member (item : Item) (k s : jsstring) :
  string_attr item k = Some s ->
  doc_string (JSON_stringify (JObj item)) k = Some s.
Proof.
  unfold string_attr.
  induction item as [|[k' v] item IH]; [discriminate|].
  rewrite JSON_stringify_member. cbn [own_prop].
  destruct (str_eqb k' k) eqn:K.
  - destruct v; try discriminate.
    intros E. injection E as ->.
    cbn [doc_string JSON_stringify]. unfold string_attr.
    cbn [own_prop]. rewrite K. reflexivity.
  - intros E. specialize (IH E).
    destruct (JSON_stringify (JObj item)) as [| | | | | |ps] eqn:J;
      try discriminate.
    cbn [members_of]. cbn [doc_string] in IH.
    destruct v; cbn [doc_string]; unfold string_attr in *;
      cbn [own_prop]; rewrite ?K; exact IH.
Qed.

Lemma JSON_stringify_items (items : list Item) :
  JSON_stringify (JArr (map JObj items)) =
    JArr (map (fun item => JSON_stringify (JObj item)) items).
Proof.
  cbn [JSON_stringify]. f_equal. rewrite map_map. reflexivity.
Qed.

(** ** ListPosts: claims *)

Lemma In_indexed_items (orc : Oracle) (t : Table) (item : Item) :
  In item (indexed_items orc t) <->
  exists k, t !! k = Some item /\ index_has orc k = true.
Proof.
  unfold indexed_items.
  rewrite <- list_elem_of_In, list_elem_of_fmap. split.
  - intros ([k i] & -> & Hi). apply list_elem_of_In, List.filter_In in Hi.
    destruct Hi as [Hi Hk]. apply list_elem_of_In, elem_of_map_to_list in Hi.
    eauto.
  - intros (k & Hk & Hi). exists (k, item). split; [reflexivity|].
    apply list_elem_of_In, List.filter_In. split; [|exact Hi].
    apply list_elem_of_In, elem_of_map_to_list. exact Hk.
Qed.

Lemma utf8_ascii (s : jsstring) :
  Forall (fun c => (c < 0x80)%N) s -> utf8 s = s.
Proof.
  unfold utf8. induction 1 as [|c s Hc _ IH]; [reflexivity|].
  cbn [code_points].
  assert (is_high_surrogate c = false) as ->
    by (unfold is_high_surrogate; apply andb_false_iff; left;
        apply N.leb_gt; lia).
  assert (is_low_surrogate c = false) as ->
    by (unfold is_low_surrogate; apply andb_false_iff; left;
        apply N.leb_gt; lia).
  cbn [flat_map]. rewrite IH. unfold utf8_of_code_point.
  apply N.ltb_lt in Hc. rewrite Hc. reflexivity.
Qed.

(** On ASCII keys, the timestamps of [toISOString] among them, the index
    order is the order of the strings themselves. *)
Lemma key_leb_ascii (a b : jsstring) :
  Forall (fun c => (c < 0x80)%N) a ->
  Forall (fun c => (c < 0x80)%N) b ->
  key_leb a b = str_leb a b.
Proof.
  intros Ha Hb. unfold key_leb. rewrite (utf8_ascii a Ha), (utf8_ascii b Hb).
  reflexivity.
Qed.


Lemma get_posts_run (env : Env) (orc : Oracle)
  (event : APIGatewayProxyEvent) (tbl : Table) :
  GetPosts.handler env orc event tbl =
    match store_fault orc with
    | Some e => (GetPosts.failure_response env e, tbl)
    | None =>
        ({| statusCode := 200;
            headers := GetPosts.cached_headers;
            body := JArr (map (fun item => JSON_stringify (JObj item))
                     (firstn (Nat.min 50 (page_items orc))
                        (index_sort false
                           (List.filter (in_partition (lit "published"))
                                        (indexed_items orc tbl))))) |}, tbl)
    end.
Proof.
  unfold GetPosts.handler, GetPosts.attempt, try_catch, bind, send_query.
  destruct (store_fault orc); [reflexivity|].
  unfold ret, GetPosts.ok_response. cbn [GetPosts.items_or_empty Items].
  rewrite JSON_stringify_items. reflexivity.
Qed.



(** ** Store failures *)

Lemma development_mode_spec (env : Env) :
  development_mode env = true <-> NODE_ENV env = Some (lit "development").
Proof.
  unfold development_mode. destruct (NODE_ENV env) as [mode|].
  - rewrite str_eqb_eq. split; congruence.
  - split; discriminate.
Qed.

Lemma get_posts_failure (env : Env) (e : Thrown) :
  GetPosts.failure_response env e =
    {| statusCode := 500;
       headers := json_headers;
       body := JObj ((lit "error", JStr (lit "Failed to fetch posts"))
                     :: if development_mode env
                        then [(lit "message", JStr (errorMessage e))]
                        else []) |}.
Proof.
  unfold GetPosts.failure_response, detail_message.
  destruct (development_mode env); reflexivity.
Qed.

(** C8: when the store call fails, ListPosts answers 500 with the fixed
    error text, and so does CreatePost for every failure other than the
    conditional-check rejection (which is the 409 of C6); the body has a
    [message] member, the failure's own message, exactly when [NODE_ENV] is
    [development]; the table is unchanged. *)
Theorem store_failure_is_500 `{JSONRuntime}
  (env : Env) (orc : Oracle) (event : APIGatewayProxyEvent) (tbl : Table)
  (e : Thrown) :
  store_fault orc = Some e ->
  GetPosts.handler env orc event tbl =
    ({| statusCode := 500;
        headers := json_headers;
        body := JObj ((lit "error", JStr (lit "Failed to fetch posts"))
                      :: if development_mode env
                         then [(lit "message", JStr (errorMessage e))]
                         else []) |}, tbl) /\
  (forall cand v,
     JSON_parse (body_or_default event) = Some cand ->
     validatePostData cand = Normal v ->
     isValid v = true ->
     CreatePost.is_conditional_check_failed e = false ->
     CreatePost.handler env orc event tbl =
       ({| statusCode := 500;
           headers := json_headers;
           body := JObj ((lit "error", JStr (lit "Failed to create post"))
                         :: if development_mode env
                            then [(lit "message", JStr (errorMessage e))]
                            else []) |}, tbl)) /\
  (development_mode env = true <->
   NODE_ENV env = Some (lit "development")).
Proof.
  intros Hf. split; [|split].
  - rewrite get_posts_run, Hf, get_posts_failure. reflexivity.
  - intros cand v Hp Hv Hi He.
    destruct (validatePostData_Normal cand v Hv) as (R & _ & Hb).
    rewrite Hi in Hb.
    assert (all_errors cand = []) as E by (destruct (all_errors cand); easy).
    destruct (handler_valid env orc event cand tbl Hp R E)
      as (t & c & _ & _ & Hrun).
    cbv zeta in Hrun. rewrite Hf in Hrun.
    rewrite Hrun, (on_error_failure env e He). reflexivity.
  - apply development_mode_spec.
Qed.

Lemma store_failure_is_500_witness :
  (GetPosts.handler production (failing an_id jan_1 unreachable)
     (request hello_text) feed_table =
     ({| statusCode := 500;
         headers := json_headers;
         body := JObj [(lit "error", JStr (lit "Failed to fetch posts"))] |},
      feed_table)) /\
  (@CreatePost.handler sample_runtime development
     (failing an_id jan_1 unreachable) (request hello_text) feed_table =
     ({| statusCode := 500;
         headers := json_headers;
         body := JObj [(lit "error", JStr (lit "Failed to create post"));
                       (lit "message", JStr (lit "connect ETIMEDOUT"))] |},
      feed_table)).
Proof.
  split.
  - destruct (@store_failure_is_500 sample_runtime production
                (failing an_id jan_1 unreachable) (request hello_text)
                feed_table unreachable) as (Hget & _); [reflexivity|].
    rewrite Hget. reflexivity.
  - destruct (@store_failure_is_500 sample_runtime development
                (failing an_id jan_1 unreachable) (request hello_text)
                feed_table unreachable) as (_ & Hcreate & _); [reflexivity|].
    rewrite (Hcreate hello_value {| isValid := true; errors := [] |});
      reflexivity.
Defined.

(** ** Further facts about CreatePost *)

Section CreatePostEdges.
Context `{JSONRuntime}.
Variables (env : Env) (orc : Oracle).

(** X6: a body that is not JSON is answered with the 400 parse failure;
    nothing is written. *)
Lemma create_malformed_body (event : APIGatewayProxyEvent) (tbl : Table) :
  JSON_parse (body_or_default event) = None ->
  CreatePost.handler env orc event tbl =
    ({| statusCode := 400;
        headers := json_headers;
        body := JObj [(lit "error",
                       JStr (lit "Invalid JSON in request body"))] |}, tbl).
Proof.
  intros Hp. unfold CreatePost.handler, CreatePost.attempt, try_catch.
  rewrite Hp. reflexivity.
Qed.

(** The JSON text [null] parses, but [null] has no properties: the validator
    throws, the outer [catch] answers 500, and nothing is written. This
    candidate is outside the validation failures of C1 and C7. *)
Lemma create_null_body (event : APIGatewayProxyEvent) (tbl : Table) :
  JSON_parse (body_or_default event) = Some JNull ->
  statusCode (fst (CreatePost.handler env orc event tbl)) = 500 /\
  snd (CreatePost.handler env orc event tbl) = tbl.
Proof.
  intros Hp. unfold CreatePost.handler, CreatePost.attempt, try_catch.
  rewrite Hp. split; reflexivity.
Qed.

(** Every run of CreatePost keeps the table well formed: each item is
    stored under the key made of its own [postId] and [createdAt]. *)
Lemma create_preserves_table_wf (event : APIGatewayProxyEvent)
  (tbl : Table) :
  table_wf tbl -> table_wf (snd (CreatePost.handler env orc event tbl)).
Proof.
  intros W.
  destruct (JSON_parse (body_or_default event)) as [cand|] eqn:Hp.
  - destruct (readable cand) eqn:R.
    + destruct (all_errors cand) as [|m rest] eqn:E.
      * destruct (handler_valid env orc event cand tbl Hp R E)
          as (t & c & _ & _ & Hrun).
        cbv zeta in Hrun. rewrite Hrun.
        destruct (store_fault orc); [exact W|].
        destruct (condition_holds _ _); [|exact W].
        apply table_wf_insert; [exact W|apply post_of_key].
      * rewrite (handler_invalid env orc event cand tbl Hp R); [exact W|].
        rewrite E. discriminate.
    + destruct (validatePostData_unreadable cand R) as [e He].
      unfold CreatePost.handler, CreatePost.attempt, try_catch, bind, lift.
      rewrite Hp, He. exact W.
  - unfold CreatePost.handler, CreatePost.attempt, try_catch.
    rewrite Hp. exact W.
Qed.

End CreatePostEdges.

Lemma create_malformed_body_witness :
  @JSON_parse sample_runtime (body_or_default (request (lit "{title:")))
    = None /\
  @CreatePost.handler sample_runtime production (calm an_id jan_1)
    (request (lit "{title:")) feed_table =
    ({| statusCode := 400;
        headers := json_headers;
        body := JObj [(lit "error",
                       JStr (lit "Invalid JSON in request body"))] |},
     feed_table).
Proof.
  split; [reflexivity|].
  apply (@create_malformed_body sample_runtime production
           (calm an_id jan_1) (request (lit "{title:")) feed_table).
  reflexivity.
Defined.

Lemma create_preserves_table_wf_witness :
  table_wf feed_table /\
  table_wf (snd (@CreatePost.handler sample_runtime production
                   (calm an_id jan_1) (request hello_text) feed_table)).
Proof.
  split; [apply table_wf_table_of|].
  apply (@create_preserves_table_wf sample_runtime production
           (calm an_id jan_1) (request hello_text) feed_table).
  apply table_wf_table_of.
Defined.

(** * Further properties of the code *)

(** ** Sanitizer *)

Lemma trimStart_sublist (s : jsstring) : sublist (trimStart s) s.
Proof.
  destruct (trimStart_suffix s) as [p Hp]. rewrite Hp at 2.
  apply sublist_inserts_l. reflexivity.
Qed.

Lemma trimEnd_sublist (s : jsstring) : sublist (trimEnd s) s.
Proof.
  induction s as [|c s IH]; [constructor|].
  rewrite trimEnd_cons. destruct (trimEnd s) as [|d r].
  - destruct (is_white_space c).
    + apply sublist_nil_l.
    + apply sublist_skip, sublist_nil_l.
  - apply sublist_skip, IH.
Qed.

Lemma remove_angles_sublist (s : jsstring) : sublist (remove_angles s) s.
Proof.
  unfold remove_angles. induction s as [|c s IH]; simpl; [constructor|].
  destruct (negb (is_angle c)); [apply sublist_skip|apply sublist_cons];
    exact IH.
Qed.

Lemma trim_fixed_iff (s : jsstring) :
  trim s = s <-> trimStart s = s /\ trimEnd s = s.
Proof.
  split.
  - intros E.
    assert (trimStart s = s) as Es.
    { destruct (trimStart_suffix s) as [p Hp].
      pose proof (sublist_length _ _ (trimEnd_sublist (trimStart s))) as L.
      fold (trim s) in L. rewrite E in L.
      destruct p as [|c p]; [symmetry; exact Hp|].
      apply (f_equal (@length N)) in Hp. rewrite length_app in Hp.
      simpl in Hp. lia. }
    split; [exact Es|]. unfold trim in E. rewrite Es in E. exact E.
  - intros [Es Ee]. unfold trim. rewrite Es. exact Ee.
Qed.

(** X1: [sanitizeInput] only deletes code units: its result is a subsequence of
    its argument (nothing is inserted, replaced or reordered), so it is never
    longer than the argument, nor than the trimmed argument that the
    validator measured. *)
Theorem sanitizeInput_only_deletes (s : jsstring) :
  sublist (sanitizeInput s) s /\
  js_length (sanitizeInput s) <= js_length (trim s) <= js_length s.
Proof.
  assert (sublist (sanitizeInput s) (trim s)) as H1
    by apply remove_angles_sublist.
  assert (sublist (trim s) s) as H2.
  { unfold trim. etransitivity; [apply trimEnd_sublist|].
    apply trimStart_sublist. }
  split; [etransitivity; eassumption|].
  apply sublist_length in H1, H2. unfold js_length. lia.
Qed.

(** X2: the strings [sanitizeInput] leaves alone are exactly the trimmed strings
    without [<] and [>]. *)
Theorem sanitizeInput_fixed_points (s : jsstring) :
  sanitizeInput s = s <->
  trim s = s /\ Forall (fun c => c <> N_of_ascii "<" /\ c <> N_of_ascii ">") s.
Proof.
  split.
  - intros E.
    assert (Forall (fun c => is_angle c = false) s) as Hc
      by (rewrite <- E; apply sanitizeInput_clean).
    split.
    + unfold sanitizeInput in E.
      rewrite remove_angles_fixed in E by (apply Forall_trim, Hc). exact E.
    + eapply Forall_impl; [exact Hc|]. intros c. apply is_angle_spec.
  - intros [Et Hc]. unfold sanitizeInput. rewrite Et.
    apply remove_angles_fixed. eapply Forall_impl; [exact Hc|].
    intros c. apply is_angle_spec.
Qed.

(** ** Validator *)

Lemma text_rule_accepts (bound : Z) (s : jsstring) (required long : jsstring) :
  0 < js_length (trim s) <= bound ->
  (if text_missing (JStr s) then [required]
   else if bound <? trimmed_length (JStr s) then [long] else []) = [].
Proof.
  intros Hs.
  assert (text_missing (JStr s) = false) as ->
    by (apply text_missing_spec; exists s; split; [reflexivity|lia]).
  cbn [trimmed_length].
  destruct (bound <? js_length (trim s)) eqn:L; [|reflexivity].
  apply Z.ltb_lt in L. lia.
Qed.

Lemma all_errors_length (body : JsVal) : (length (all_errors body) <= 3)%nat.
Proof.
  unfold all_errors, title_errors, content_errors, status_errors.
  rewrite !length_app.
  destruct (text_missing (field body (lit "title")));
    [|destruct (200 <? _)];
    (destruct (text_missing (field body (lit "content")));
     [|destruct (10000 <? _)]);
    destruct (truthy _ && negb _); simpl; lia.
Qed.

(** X3: what the validator accepts: it answers [isValid] exactly when it found
    no error, and that is exactly when [title] is a string whose trimmed
    length is between 1 and 200, [content] is a string whose trimmed length
    is between 1 and 10,000, and [status] is falsy (absent included) or one
    of the strings [draft] and [published]. It never reports more than
    three errors. *)
Theorem validatePostData_accepts_iff (body : JsVal) (v : Validation) :
  validatePostData body = Normal v ->
  (isValid v = true <-> errors v = []) /\
  (isValid v = true <->
   (exists t, field body (lit "title") = JStr t /\
              0 < js_length (trim t) <= 200) /\
   (exists c, field body (lit "content") = JStr c /\
              0 < js_length (trim c) <= 10000) /\
   (truthy (field body (lit "status")) = false \/
    field body (lit "status") = JStr (lit "draft") \/
    field body (lit "status") = JStr (lit "published"))) /\
  (length (errors v) <= 3)%nat.
Proof.
  intros Hv. destruct (validatePostData_Normal body v Hv) as (_ & -> & ->).
  assert (match all_errors body with [] => true | _ => false end = true <->
          all_errors body = []) as Hempty
    by (destruct (all_errors body); split; congruence).
  split; [exact Hempty|]. split; [|apply all_errors_length].
  rewrite Hempty. split; [apply no_errors_fields|].
  intros ((t & Et & Ht) & (c & Ec & Hc) & Hs).
  unfold all_errors, title_errors, content_errors, status_errors.
  rewrite Et, Ec, (text_rule_accepts 200 t), (text_rule_accepts 10000 c)
    by assumption.
  destruct Hs as [-> | [-> | ->]]; reflexivity.
Qed.

Lemma validatePostData_accepts_iff_witness :
  validatePostData rejected_value =
    Normal {| isValid := false;
              errors := [msg_title_required; msg_content_required;
                         msg_status_invalid] |} /\
  ~ (exists t, field rejected_value (lit "title") = JStr t /\
               0 < js_length (trim t) <= 200).
Proof.
  split; [reflexivity|]. intros Ht.
  destruct (validatePostData_accepts_iff rejected_value
              {| isValid := false;
                 errors := [msg_title_required; msg_content_required;
                            msg_status_invalid] |} eq_refl)
    as (Hempty & Hfields & _).
  cbn [isValid errors] in Hempty, Hfields.
  destruct Ht as (t & Et & Hlen). injection Et as <-.
  vm_compute in Hlen. destruct Hlen as [Hlen _]. discriminate Hlen.
Defined.

(** ** CreatePost: bodies that are not objects *)

(** X4: [null] parses, but reading [null.title] throws inside the validator; the
    outer [catch] turns the [TypeError] into the 500 answer (with the
    [TypeError]'s message in development mode), not into a 400. Nothing is
    written. *)
Theorem null_body_is_500 `{JSONRuntime}
  (env : Env) (orc : Oracle) (event : APIGatewayProxyEvent) (tbl : Table) :
  JSON_parse (body_or_default event) = Some JNull ->
  CreatePost.handler env orc event tbl =
    ({| statusCode := 500;
        headers := json_headers;
        body := JObj ((lit "error", JStr (lit "Failed to create post"))
                      :: if development_mode env
                         then [(lit "message",
                                JStr (lit "Cannot read properties of null (reading 'title')"))]
                         else []) |}, tbl).
Proof.
  intros Hp.
  unfold CreatePost.handler, CreatePost.attempt, try_catch, bind, lift.
  rewrite Hp. cbn [validatePostData get_prop].
  rewrite on_error_failure by reflexivity. reflexivity.
Qed.

Lemma null_body_is_500_witness :
  @CreatePost.handler edge_runtime development (calm an_id jan_1)
    (request (lit "null")) feed_table =
    ({| statusCode := 500;
        headers := json_headers;
        body := JObj [(lit "error", JStr (lit "Failed to create post"));
                      (lit "message",
                       JStr (lit "Cannot read properties of null (reading 'title')"))]
     |}, feed_table).
Proof.
  rewrite (@null_body_is_500 edge_runtime development (calm an_id jan_1)
             (request (lit "null")) feed_table); reflexivity.
Defined.

(** X5: a body that parses to a number, a string, a boolean or an array has no
    [title], [content] or [status]: the answer is the 400 validation failure
    with exactly the two "required" messages. Nothing is written. *)
Theorem scalar_or_array_body_is_400 `{JSONRuntime}
  (env : Env) (orc : Oracle) (event : APIGatewayProxyEvent) (tbl : Table)
  (cand : JsVal) :
  JSON_parse (body_or_default event) = Some cand ->
  is_scalar_or_array cand = true ->
  CreatePost.handler env orc event tbl =
    ({| statusCode := 400;
        headers := json_headers;
        body := JObj [(lit "error", JStr (lit "Validation failed"));
                      (lit "details",
                       JArr [JStr msg_title_required;
                             JStr msg_content_required])] |}, tbl).
Proof.
  intros Hp Hc.
  assert (readable cand = true) as R by (destruct cand; easy).
  assert (all_errors cand = [msg_title_required; msg_content_required]) as E
    by (destruct cand; try discriminate; reflexivity).
  rewrite (handler_invalid env orc event cand tbl Hp R), E;
    [reflexivity|]. rewrite E. discriminate.
Qed.

Lemma scalar_or_array_body_is_400_witness :
  statusCode (fst (@CreatePost.handler edge_runtime production
                     (calm an_id jan_1) (request (lit "[]")) feed_table))
    = 400 /\
  statusCode (fst (@CreatePost.handler edge_runtime production
                     (calm an_id jan_1) (request (lit "42")) feed_table))
    = 400.
Proof.
  split.
  - rewrite (@scalar_or_array_body_is_400 edge_runtime production
               (calm an_id jan_1) (request (lit "[]")) feed_table (JArr []));
      reflexivity.
  - rewrite (@scalar_or_array_body_is_400 edge_runtime production
               (calm an_id jan_1) (request (lit "42")) feed_table
               (JNum 42%float)); reflexivity.
Defined.

(** ** CreatePost: answers and writes *)

Lemma on_error_shape (env : Env) (e : Thrown) :
  (statusCode (CreatePost.on_error env e) = 409 \/
   statusCode (CreatePost.on_error env e) = 500) /\
  headers (CreatePost.on_error env e) = json_headers.
Proof.
  unfold CreatePost.on_error.
  destruct (CreatePost.is_conditional_check_failed e); auto.
Qed.

(** X7: whatever the request, the oracle and the table, CreatePost answers with
    one of the status codes 201, 400, 409 and 500 and with the JSON and CORS
    headers; it changes the table only when it answers 201, and then by
    storing the returned post under the key made of its [postId] and
    [createdAt]. *)
Theorem create_writes_only_on_201 `{JSONRuntime}
  (env : Env) (orc : Oracle) (event : APIGatewayProxyEvent) (tbl : Table) :
  (statusCode (fst (CreatePost.handler env orc event tbl)) = 201 \/
   statusCode (fst (CreatePost.handler env orc event tbl)) = 400 \/
   statusCode (fst (CreatePost.handler env orc event tbl)) = 409 \/
   statusCode (fst (CreatePost.handler env orc event tbl)) = 500) /\
  headers (fst (CreatePost.handler env orc event tbl)) = json_headers /\
  (statusCode (fst (CreatePost.handler env orc event tbl)) <> 201 ->
   snd (CreatePost.handler env orc event tbl) = tbl) /\
  (statusCode (fst (CreatePost.handler env orc event tbl)) = 201 ->
   exists post,
     body (fst (CreatePost.handler env orc event tbl)) = JObj post /\
     primary_key post = Some (uuidv4 orc, toISOString orc) /\
     snd (CreatePost.handler env orc event tbl) =
       <[(uuidv4 orc, toISOString orc) := post]> tbl).
Proof.
  destruct (JSON_parse (body_or_default event)) as [cand|] eqn:Hp.
  - destruct (readable cand) eqn:R.
    + destruct (all_errors cand) as [|m rest] eqn:E.
      * destruct (handler_valid env orc event cand tbl Hp R E)
          as (t & c & _ & _ & Hrun).
        cbv zeta in Hrun. rewrite Hrun.
        destruct (store_fault orc) as [e|].
        { destruct (on_error_shape env e) as [Hs Hh]. cbn [fst snd].
          split; [tauto|]. split; [exact Hh|].
          split; [reflexivity|]. intros; lia. }
        destruct (condition_holds _ _); cbn [fst snd statusCode headers].
        { split; [auto|]. split; [reflexivity|]. split; [congruence|].
          intros _. eexists. split; [reflexivity|].
          split; [apply post_of_key|reflexivity]. }
        { split; [auto|]. split; [reflexivity|].
          split; [reflexivity|discriminate]. }
      * rewrite (handler_invalid env orc event cand tbl Hp R)
          by (rewrite E; discriminate).
        cbn [fst snd statusCode headers].
        split; [auto|]. split; [reflexivity|].
        split; [reflexivity|discriminate].
    + destruct (validatePostData_unreadable cand R) as [e He].
      unfold CreatePost.handler, CreatePost.attempt, try_catch, bind, lift.
      rewrite Hp, He. cbn [fst snd].
      destruct (on_error_shape env e) as [Hs Hh].
      split; [tauto|]. split; [exact Hh|].
      split; [reflexivity|]. intros; lia.
  - unfold CreatePost.handler, CreatePost.attempt, try_catch.
    rewrite Hp. cbn [fst snd ret].
    split; [auto|]. split; [reflexivity|].
    split; [reflexivity|discriminate].
Qed.

Lemma sanitizeInput_length (s : jsstring) :
  js_length (sanitizeInput s) <= js_length (trim s).
Proof.
  pose proof (sublist_length _ _ (remove_angles_sublist (trim s))) as L.
  unfold sanitizeInput, js_length. lia.
Qed.

Lemma sanitizeInput_no_angle (s : jsstring) :
  Forall (fun c => c <> N_of_ascii "<" /\ c <> N_of_ascii ">")
         (sanitizeInput s).
Proof.
  eapply Forall_impl; [apply sanitizeInput_clean|].
  intros c. apply is_angle_spec.
Qed.

(** X9: the post answered with a 201 is the item now stored under its key. Its
    title and content are free of [<] and [>] and at most 200 and 10,000
    code units long (the validator bounds the trimmed input and the
    sanitizer only deletes), and [updatedAt] equals [createdAt]. *)
Theorem created_post_is_stored_and_bounded `{JSONRuntime}
  (env : Env) (orc : Oracle) (event : APIGatewayProxyEvent) (tbl : Table)
  (cand : JsVal) (v : Validation) :
  JSON_parse (body_or_default event) = Some cand ->
  validatePostData cand = Normal v ->
  isValid v = true ->
  store_fault orc = None ->
  tbl !! (uuidv4 orc, toISOString orc) = None ->
  exists post title content,
    body (fst (CreatePost.handler env orc event tbl)) = JObj post /\
    snd (CreatePost.handler env orc event tbl)
      !! (uuidv4 orc, toISOString orc) = Some post /\
    string_attr post (lit "title") = Some title /\
    string_attr post (lit "content") = Some content /\
    js_length title <= 200 /\
    js_length content <= 10000 /\
    Forall (fun c => c <> N_of_ascii "<" /\ c <> N_of_ascii ">") title /\
    Forall (fun c => c <> N_of_ascii "<" /\ c <> N_of_ascii ">") content /\
    string_attr post (lit "updatedAt") = string_attr post (lit "createdAt").
Proof.
  intros Hp Hv Hi Hf Hk.
  destruct (validatePostData_Normal cand v Hv) as (R & _ & Hb).
  rewrite Hi in Hb.
  assert (all_errors cand = []) as E by (destruct (all_errors cand); easy).
  destruct (handler_valid env orc event cand tbl Hp R E)
    as (t & c & Et & Ec & Hrun).
  destruct (no_errors_fields cand E) as ((t' & Et' & Ht) & (c' & Ec' & Hc) & _).
  rewrite Et in Et'. injection Et' as <-.
  rewrite Ec in Ec'. injection Ec' as <-.
  cbv zeta in Hrun. rewrite Hf, Hk in Hrun. cbn [condition_holds] in Hrun.
  rewrite Hrun. cbn [fst snd body].
  exists (post_of orc t c (field cand (lit "status"))),
         (sanitizeInput t), (sanitizeInput c).
  split; [reflexivity|]. split; [apply lookup_insert_eq|].
  split; [reflexivity|]. split; [reflexivity|].
  pose proof (sanitizeInput_length t). pose proof (sanitizeInput_length c).
  split; [lia|]. split; [lia|].
  split; [apply sanitizeInput_no_angle|].
  split; [apply sanitizeInput_no_angle|reflexivity].
Qed.

Lemma created_post_is_stored_and_bounded_witness :
  exists post,
    snd (@CreatePost.handler sample_runtime production (calm an_id jan_1)
           (request boundary_text) feed_table)
      !! (lit an_id, lit jan_1) = Some post /\
    exists title, string_attr post (lit "title") = Some title /\
                  js_length title <= 200.
Proof.
  destruct (@created_post_is_stored_and_bounded sample_runtime production
              (calm an_id jan_1) (request boundary_text) feed_table
              boundary_value {| isValid := true; errors := [] |})
    as (post & title & content & _ & Hs & Ht & _ & Hl & _);
    [vm_compute; reflexivity | vm_compute; reflexivity | reflexivity
    | reflexivity | vm_compute; reflexivity |].
  exists post. split; [exact Hs|]. exists title. split; [exact Ht|exact Hl].
Defined.

Lemma remove_angles_all (s : jsstring) :
  Forall (fun c => is_angle c = true) s -> remove_angles s = [].
Proof.
  unfold remove_angles. induction 1 as [|c s Hc _ IH]; simpl;
    [reflexivity|]. rewrite Hc. exact IH.
Qed.

(** X10: emptiness is tested before the brackets are removed: a title that is
    nothing but [<] and [>] once trimmed (up to 200 of them) passes validation
    and the post is stored, and answered, with the empty title. *)
Theorem bracket_only_title_is_stored_empty `{JSONRuntime}
  (env : Env) (orc : Oracle) (event : APIGatewayProxyEvent) (tbl : Table)
  (cand : JsVal) (title : jsstring) :
  JSON_parse (body_or_default event) = Some cand ->
  field cand (lit "title") = JStr title ->
  0 < js_length (trim title) <= 200 ->
  Forall (fun c => c = N_of_ascii "<" \/ c = N_of_ascii ">") (trim title) ->
  content_errors (field cand (lit "content")) = [] ->
  status_errors (field cand (lit "status")) = [] ->
  store_fault orc = None ->
  tbl !! (uuidv4 orc, toISOString orc) = None ->
  validatePostData cand = Normal {| isValid := true; errors := [] |} /\
  exists post,
    CreatePost.handler env orc event tbl =
      ({| statusCode := 201; headers := json_headers; body := JObj post |},
       <[(uuidv4 orc, toISOString orc) := post]> tbl) /\
    string_attr post (lit "title") = Some [].
Proof.
  intros Hp Et Hl Ha Ec Es Hf Hk.
  pose proof (field_string_readable _ _ _ Et) as R.
  assert (all_errors cand = []) as E.
  { unfold all_errors. rewrite Ec, Es, Et. unfold title_errors.
    rewrite (text_rule_accepts 200 title) by exact Hl. reflexivity. }
  split; [rewrite (validatePostData_readable cand R), E; reflexivity|].
  destruct (handler_valid env orc event cand tbl Hp R E)
    as (t & c & Et' & _ & Hrun).
  rewrite Et in Et'. injection Et' as <-.
  cbv zeta in Hrun. rewrite Hf, Hk in Hrun. cbn [condition_holds] in Hrun.
  eexists. split; [exact Hrun|].
  unfold post_of, string_attr. cbn [own_prop str_eqb].
  assert (sanitizeInput title = []) as ->; [|reflexivity].
  apply remove_angles_all. eapply Forall_impl; [exact Ha|].
  intros x [-> | ->]; reflexivity.
Qed.

Lemma bracket_only_title_is_stored_empty_witness :
  exists post,
    @CreatePost.handler edge_runtime production (calm an_id jan_1)
      (request brackets_text) feed_table =
      ({| statusCode := 201; headers := json_headers; body := JObj post |},
       <[(lit an_id, lit jan_1) := post]> feed_table) /\
    string_attr post (lit "title") = Some [].
Proof.
  destruct (@bracket_only_title_is_stored_empty edge_runtime production
              (calm an_id jan_1) (request brackets_text) feed_table
              brackets_value (lit " <<>> "))
    as (_ & post & Hrun & Ht);
    [reflexivity | reflexivity | vm_compute; split; [reflexivity|discriminate]
    | vm_compute;
      repeat (apply List.Forall_cons;
              [first [left; reflexivity | right; reflexivity]|]);
      apply List.Forall_nil
    | reflexivity | reflexivity | reflexivity | vm_compute; reflexivity |].
  exists post. split; [exact Hrun|exact Ht].
Defined.

(** X11: replaying a successful request with the same identifier and instant is
    refused: the first run answers 201, the second 409, and the second run
    leaves the table as the first one left it. *)
Theorem create_again_is_conflict `{JSONRuntime}
  (env : Env) (orc : Oracle) (event : APIGatewayProxyEvent) (tbl : Table)
  (cand : JsVal) (v : Validation) :
  JSON_parse (body_or_default event) = Some cand ->
  validatePostData cand = Normal v ->
  isValid v = true ->
  store_fault orc = None ->
  table_wf tbl ->
  tbl !! (uuidv4 orc, toISOString orc) = None ->
  statusCode (fst (CreatePost.handler env orc event tbl)) = 201 /\
  CreatePost.handler env orc event
    (snd (CreatePost.handler env orc event tbl)) =
    ({| statusCode := 409;
        headers := json_headers;
        body := JObj [(lit "error",
                       JStr (lit "Post with this ID already exists"))] |},
     snd (CreatePost.handler env orc event tbl)).
Proof.
  intros Hp Hv Hi Hf W Hk.
  destruct (validatePostData_Normal cand v Hv) as (R & _ & Hb).
  rewrite Hi in Hb.
  assert (all_errors cand = []) as E by (destruct (all_errors cand); easy).
  destruct (handler_valid env orc event cand tbl Hp R E)
    as (t & c & Et & Ec & Hrun).
  cbv zeta in Hrun. rewrite Hf, Hk in Hrun. cbn [condition_holds] in Hrun.
  rewrite Hrun. cbn [fst snd statusCode]. split; [reflexivity|].
  set (post := post_of orc t c (field cand (lit "status"))).
  set (tbl' := <[(uuidv4 orc, toISOString orc) := post]> tbl).
  assert (table_wf tbl') as W'
    by (apply table_wf_insert; [exact W|apply post_of_key]).
  destruct (handler_valid env orc event cand tbl' Hp R E)
    as (t' & c' & _ & _ & Hrun').
  cbv zeta in Hrun'. rewrite Hf, (condition_on_key tbl' _ W') in Hrun'.
  unfold tbl' at 2 in Hrun'. rewrite lookup_insert_eq in Hrun'.
  exact Hrun'.
Qed.

Lemma create_again_is_conflict_witness :
  statusCode
    (fst (@CreatePost.handler sample_runtime production (calm an_id jan_1)
            (request hello_text)
            (snd (@CreatePost.handler sample_runtime production
                    (calm an_id jan_1) (request hello_text) feed_table))))
  = 409.
Proof.
  destruct (@create_again_is_conflict sample_runtime production
              (calm an_id jan_1) (request hello_text) feed_table
              hello_value {| isValid := true; errors := [] |})
    as (_ & Hagain);
    [reflexivity | reflexivity | reflexivity | reflexivity
    | apply table_wf_table_of | vm_compute; reflexivity |].
  rewrite Hagain. reflexivity.
Defined.

(** ** CreatePost followed by ListPosts *)

Lemma listed_run (env : Env) (orc : Oracle) (t : Table) :
  store_fault orc = None ->
  listed env orc t =
    map (fun item => JSON_stringify (JObj item))
      (firstn (Nat.min 50 (page_items orc))
         (index_sort false
            (List.filter (in_partition (lit "published"))
                         (indexed_items orc t)))).
Proof.
  intros Hf. unfold listed. rewrite get_posts_run, Hf. reflexivity.
Qed.

Lemma listed_fault (env : Env) (orc : Oracle) (t : Table) (e : Thrown) :
  store_fault orc = Some e -> listed env orc t = [].
Proof.
  intros Hf. unfold listed.
  rewrite get_posts_run, Hf, get_posts_failure. reflexivity.
Qed.

(** X12: a post created with any accepted status other than [published]
    (none, a falsy one, or [draft]) is in no later answer of ListPosts,
    whatever the state of the index. A post created with status [published]
    is in a later answer once its write has reached the index, provided the
    store answers and neither the limit of 50 nor the page size cuts the
    published entries of the index. *)
Theorem created_post_and_feed `{JSONRuntime}
  (env : Env) (orc reader : Oracle) (event : APIGatewayProxyEvent)
  (tbl : Table) (cand : JsVal) (v : Validation) :
  JSON_parse (body_or_default event) = Some cand ->
  validatePostData cand = Normal v ->
  isValid v = true ->
  store_fault orc = None ->
  tbl !! (uuidv4 orc, toISOString orc) = None ->
  (field cand (lit "status") = JStr (lit "published") ->
   store_fault reader = None ->
   index_has reader (uuidv4 orc, toISOString orc) = true ->
   (published_indexed reader (snd (CreatePost.handler env orc event tbl))
      <= Nat.min 50 (page_items reader))%nat ->
   In (body (fst (CreatePost.handler env orc event tbl)))
      (listed env reader (snd (CreatePost.handler env orc event tbl)))) /\
  (field cand (lit "status") <> JStr (lit "published") ->
   ~ In (body (fst (CreatePost.handler env orc event tbl)))
        (listed env reader (snd (CreatePost.handler env orc event tbl)))).
Proof.
  intros Hp Hv Hi Hf Hk.
  destruct (validatePostData_Normal cand v Hv) as (R & _ & Hb).
  rewrite Hi in Hb.
  assert (all_errors cand = []) as E by (destruct (all_errors cand); easy).
  destruct (handler_valid env orc event cand tbl Hp R E)
    as (t & c & Et & Ec & Hrun).
  destruct (no_errors_fields cand E) as (_ & _ & Hs).
  cbv zeta in Hrun. rewrite Hf, Hk in Hrun. cbn [condition_holds] in Hrun.
  rewrite Hrun. cbn [fst snd body].
  set (post := post_of orc t c (field cand (lit "status"))).
  assert (JSON_stringify (JObj post) = JObj post) as Hdoc
    by exact (post_of_body orc t c _ Hs).
  split.
  - intros Est Hr Hidx Hfew. rewrite (listed_run env reader _ Hr).
    rewrite <- Hdoc at 1.
    apply (in_map (fun i => JSON_stringify (JObj i))).
    assert (in_partition (lit "published") post = true) as Hpart
      by (unfold post; rewrite Est; reflexivity).
    rewrite firstn_all2 by (rewrite index_sort_length; exact Hfew).
    apply index_sort_In, List.filter_In. split; [|exact Hpart].
    apply In_indexed_items. exists (uuidv4 orc, toISOString orc).
    split; [apply lookup_insert_eq|exact Hidx].
  - intros Hne Hin.
    destruct (store_fault reader) as [e|] eqn:Hr;
      [rewrite (listed_fault env reader _ e Hr) in Hin; destruct Hin|].
    rewrite (listed_run env reader _ Hr) in Hin.
    apply in_map_iff in Hin as (item & Hitem & Hin).
    apply In_firstn, index_sort_In, List.filter_In in Hin as [_ Hpart].
    apply in_partition_spec in Hpart as [Hst _].
    apply JSON_stringify_string_member in Hst.
    rewrite Hitem in Hst. unfold post, post_of in Hst.
    destruct Hs as [F | [D | P]]; [| |contradiction].
    + rewrite F in Hst. discriminate Hst.
    + rewrite D in Hst. discriminate Hst.
Qed.

Lemma created_post_and_feed_witness :
  In (body (fst (@CreatePost.handler edge_runtime production
                   (calm an_id jan_3) (request published_text) feed_table)))
     (listed production (calm an_id jan_3)
        (snd (@CreatePost.handler edge_runtime production
                (calm an_id jan_3) (request published_text) feed_table))) /\
  ~ In (body (fst (@CreatePost.handler edge_runtime production
                     (calm an_id jan_3) (request hello_text) feed_table)))
       (listed production (calm an_id jan_3)
          (snd (@CreatePost.handler edge_runtime production
                  (calm an_id jan_3) (request hello_text) feed_table))).
Proof.
  split.
  - destruct (@created_post_and_feed edge_runtime production
                (calm an_id jan_3) (calm an_id jan_3)
                (request published_text) feed_table
                published_value {| isValid := true; errors := [] |})
      as (Hin & _);
      [reflexivity | reflexivity | reflexivity | reflexivity
      | vm_compute; reflexivity |].
    apply Hin; [reflexivity | reflexivity | reflexivity |].
    vm_compute. lia.
  - destruct (@created_post_and_feed edge_runtime production
                (calm an_id jan_3) (calm an_id jan_3)
                (request hello_text) feed_table
                hello_value {| isValid := true; errors := [] |})
      as (_ & Hout);
      [reflexivity | reflexivity | reflexivity | reflexivity
      | vm_compute; reflexivity |].
    apply Hout. discriminate.
Defined.

(** ** ListPosts: answers *)

(** X13: ListPosts never changes the table. It answers 200, with the five-minute
    [Cache-Control] header, exactly when the store answers; otherwise it
    answers 500 with the plain JSON and CORS headers, so a failure is not
    marked cacheable. *)
Theorem list_posts_reads_only
  (env : Env) (orc : Oracle) (event : APIGatewayProxyEvent) (tbl : Table) :
  snd (GetPosts.handler env orc event tbl) = tbl /\
  (statusCode (fst (GetPosts.handler env orc event tbl)) = 200 <->
   store_fault orc = None) /\
  (statusCode (fst (GetPosts.handler env orc event tbl)) = 500 <->
   store_fault orc <> None) /\
  (In ("Cache-Control", "public, max-age=300")%string
      (headers (fst (GetPosts.handler env orc event tbl))) <->
   store_fault orc = None).
Proof.
  rewrite get_posts_run. destruct (store_fault orc) as [e|].
  - rewrite get_posts_failure. cbn [fst snd statusCode headers].
    split; [reflexivity|]. split; [split; discriminate|].
    split; [split; [discriminate|reflexivity]|].
    split; [|discriminate].
    unfold json_headers. simpl. intros [E|[E|[]]]; discriminate E.
  - cbn [fst snd statusCode headers].
    split; [reflexivity|]. split; [split; reflexivity|].
    split; [split; [discriminate|congruence]|].
    split; [reflexivity|]. intros _. unfold GetPosts.cached_headers.
    simpl. auto.
Qed.

(** ** Deployment stages *)

Lemma own_config_environments (k : jsstring) :
  own_config environments k =
    if str_eqb (lit "dev") k then own_config environments (lit "dev")
    else if str_eqb (lit "staging") k
         then own_config environments (lit "staging")
         else if str_eqb (lit "prod") k
              then own_config environments (lit "prod")
              else None.
Proof.
  unfold environments. cbn [own_config].
  destruct (str_eqb (lit "dev") k); [reflexivity|].
  destruct (str_eqb (lit "staging") k); [reflexivity|].
  destruct (str_eqb (lit "prod") k); reflexivity.
Qed.

Lemma existsb_names (names : list jsstring) (k : jsstring) :
  existsb (fun n => str_eqb n k) names = true <-> In k names.
Proof.
  rewrite existsb_exists. split.
  - intros (n & Hn & E). apply str_eqb_eq in E. subst n. exact Hn.
  - intros Hk. exists k. split; [exact Hk|apply str_eqb_refl].
Qed.

(** X14: [getEnvironmentConfig] returns a configuration exactly for [dev],
    [staging] and [prod], and the configuration returned for a stage names
    that stage. *)
Theorem getEnvironmentConfig_known_stages (name : jsstring) :
  (In name [lit "dev"; lit "staging"; lit "prod"] <->
   exists config, getEnvironmentConfig name = Normal (OwnMember config)) /\
  (forall config,
     getEnvironmentConfig name = Normal (OwnMember config) ->
     stage config = name /\ In (name, config) environments).
Proof.
  unfold getEnvironmentConfig, environments_get.
  rewrite own_config_environments.
  destruct (str_eqb (lit "dev") name) eqn:D;
    [|destruct (str_eqb (lit "staging") name) eqn:S;
      [|destruct (str_eqb (lit "prod") name) eqn:P]].
  - apply str_eqb_eq in D. subst name. split.
    + split; [eauto|]. intros _. left. reflexivity.
    + intros config E. injection E as <-. split; [reflexivity|].
      left. reflexivity.
  - apply str_eqb_eq in S. subst name. split.
    + split; [eauto|]. intros _. right. left. reflexivity.
    + intros config E. injection E as <-. split; [reflexivity|].
      right. left. reflexivity.
  - apply str_eqb_eq in P. subst name. split.
    + split; [eauto|]. intros _. right. right. left. reflexivity.
    + intros config E. injection E as <-. split; [reflexivity|].
      right. right. left. reflexivity.
  - apply str_eqb_neq in D, S, P. split.
    + split.
      * intros [E|[E|[E|[]]]]; congruence.
      * intros [config E].
        destruct (existsb _ Object_prototype_names); discriminate E.
    + intros config E.
      destruct (existsb _ Object_prototype_names); discriminate E.
Qed.

(** X15: [getEnvironmentConfig] throws, and then throws
    [Error("Unknown environment: " + stage)], exactly for the names that are
    neither a stage of the table nor a member every object inherits from
    [Object.prototype] (for [toString], [constructor] and the like the lookup
    finds the inherited member, which is truthy, and returns it). *)
Theorem getEnvironmentConfig_unknown_stage (name : jsstring) :
  ((exists e, getEnvironmentConfig name = Throw e) <->
   ~ In name [lit "dev"; lit "staging"; lit "prod"] /\
   ~ In name Object_prototype_names) /\
  (forall e, getEnvironmentConfig name = Throw e ->
             e = Error (lit "Unknown environment: " ++ name)) /\
  (In name Object_prototype_names ->
   getEnvironmentConfig name = Normal (InheritedMember name)).
Proof.
  unfold getEnvironmentConfig, environments_get.
  rewrite own_config_environments.
  pose proof (existsb_names Object_prototype_names name) as Hn.
  destruct (str_eqb (lit "dev") name) eqn:D;
    [|destruct (str_eqb (lit "staging") name) eqn:S;
      [|destruct (str_eqb (lit "prod") name) eqn:P]].
  - apply str_eqb_eq in D. subst name. cbn.
    split; [split; [intros [e E]; discriminate E|]|
            split; [discriminate|]].
    + intros [Hk _]. exfalso. apply Hk. left. reflexivity.
    + intros Hin. apply Hn in Hin. vm_compute in Hin. discriminate Hin.
  - apply str_eqb_eq in S. subst name. cbn.
    split; [split; [intros [e E]; discriminate E|]|
            split; [discriminate|]].
    + intros [Hk _]. exfalso. apply Hk. right. left. reflexivity.
    + intros Hin. apply Hn in Hin. vm_compute in Hin. discriminate Hin.
  - apply str_eqb_eq in P. subst name. cbn.
    split; [split; [intros [e E]; discriminate E|]|
            split; [discriminate|]].
    + intros [Hk _]. exfalso. apply Hk. right. right. left. reflexivity.
    + intros Hin. apply Hn in Hin. vm_compute in Hin. discriminate Hin.
  - apply str_eqb_neq in D, S, P.
    destruct (existsb _ Object_prototype_names) eqn:X.
    + split; [split; [intros [e E]; discriminate E|]|
              split; [discriminate|reflexivity]].
      intros [_ Hk]. exfalso. apply Hk, Hn. reflexivity.
    + split; [split|split].
      * intros _. split.
        { intros [E|[E|[E|[]]]]; congruence. }
        { intros Hin. apply Hn in Hin. discriminate Hin. }
      * intros _. eauto.
      * intros e E. injection E as <-. reflexivity.
      * intros Hin. apply Hn in Hin. discriminate Hin.
Qed.

(** ** ListPosts: the cap *)

(** X16: when the store answers, the answer of ListPosts is a front part of
    the published entries the index holds, newest first: a published post
    that the index holds and the answer leaves out is not newer than any
    post listed, and when neither the limit of 50 nor the page size cuts
    them, every published post the index holds is listed. *)
Theorem list_posts_keeps_newest (env : Env) (orc : Oracle) (tbl : Table) :
  store_fault orc = None ->
  (forall k item,
     tbl !! k = Some item ->
     index_has orc k = true ->
     in_partition (lit "published") item = true ->
     ~ In (JSON_stringify (JObj item)) (listed env orc tbl) ->
     forall d, In d (listed env orc tbl) ->
       exists created,
         doc_string d (lit "createdAt") = Some created /\
         key_leb (sort_key item) created = true) /\
  ((published_indexed orc tbl <= Nat.min 50 (page_items orc))%nat ->
   forall k item,
     tbl !! k = Some item ->
     index_has orc k = true ->
     in_partition (lit "published") item = true ->
     In (JSON_stringify (JObj item)) (listed env orc tbl)).
Proof.
  intros Hf. rewrite (listed_run env orc tbl Hf).
  set (l := index_sort false
              (List.filter (in_partition (lit "published"))
                           (indexed_items orc tbl))).
  assert (forall k item, tbl !! k = Some item -> index_has orc k = true ->
            in_partition (lit "published") item = true -> In item l) as Hall.
  { intros k item Hk Hidx Hpart.
    apply index_sort_In, List.filter_In. split; [|exact Hpart].
    apply In_indexed_items. eauto. }
  split.
  - intros k item Hk Hidx Hpart Hout d Hd.
    apply in_map_iff in Hd as (x & <- & Hx).
    pose proof (Hall k item Hk Hidx Hpart) as Hl.
    set (n := Nat.min 50 (page_items orc)) in *.
    assert (~ In item (firstn n l)) as Hnot.
    { intros Hin. apply Hout.
      exact (in_map (fun i => JSON_stringify (JObj i)) _ _ Hin). }
    rewrite <- (firstn_skipn n l) in Hl.
    apply in_app_or in Hl as [Hl|Hl]; [contradiction|].
    pose proof (index_sort_sorted false
                  (List.filter (in_partition (lit "published"))
                               (indexed_items orc tbl))) as Hsorted.
    fold l in Hsorted. rewrite <- (firstn_skipn n l) in Hsorted.
    assert (precedes false x item) as Hxi.
    { apply (StronglySorted_app_1_elem_of _ _ _ _ _ Hsorted);
        apply list_elem_of_In; assumption. }
    assert (in_partition (lit "published") x = true) as Hxp.
    { apply In_firstn, index_sort_In, List.filter_In in Hx. tauto. }
    apply in_partition_spec in Hxp as [_ [cx Hcx]].
    exists cx. split; [apply JSON_stringify_string_member, Hcx|].
    unfold precedes, before, sort_key in Hxi. rewrite Hcx in Hxi.
    exact Hxi.
  - intros Hfew k item Hk Hidx Hpart.
    apply (in_map (fun i => JSON_stringify (JObj i))).
    rewrite firstn_all2.
    + exact (Hall k item Hk Hidx Hpart).
    + unfold l. rewrite index_sort_length. exact Hfew.
Qed.

Lemma list_posts_keeps_newest_witness :
  map (fun d => doc_string d (lit "title"))
      (listed production (lagging "post-2" 1) feed_table) =
    [Some (lit "Second")] /\
  In (JSON_stringify (JObj (stored_post "post-1" jan_1 "First" "published")))
     (listed production (lagging "post-2" 2) feed_table).
Proof.
  split; [vm_compute; reflexivity|].
  destruct (list_posts_keeps_newest production (lagging "post-2" 2)
              feed_table) as (_ & Hall); [reflexivity|].
  apply (Hall ltac:(vm_compute; lia) (lit "post-1", lit jan_1));
    vm_compute; reflexivity.
Defined.

(** ** CreatePost: stored posts are never replaced *)

(** X8: CreatePost never replaces or removes a stored post. On a well-formed
    table, whatever the request and the oracle, every item stored before a
    run is still stored, unchanged and under the same key, after it: the
    write is conditional, so even when the generator and the clock repeat
    the key of a stored post that post is kept. *)
Theorem create_never_overwrites `{JSONRuntime}
  (env : Env) (orc : Oracle) (event : APIGatewayProxyEvent) (tbl : Table)
  (k : jsstring * jsstring) (item : Item) :
  table_wf tbl ->
  tbl !! k = Some item ->
  snd (CreatePost.handler env orc event tbl) !! k = Some item.
Proof.
  intros W Hitem.
  destruct (JSON_parse (body_or_default event)) as [cand|] eqn:Hp.
  - destruct (readable cand) eqn:R.
    + destruct (all_errors cand) as [|m rest] eqn:E.
      * destruct (handler_valid env orc event cand tbl Hp R E)
          as (t & c & _ & _ & Hrun).
        cbv zeta in Hrun. rewrite (condition_on_key tbl _ W) in Hrun.
        rewrite Hrun.
        destruct (store_fault orc); [exact Hitem|].
        destruct (tbl !! (uuidv4 orc, toISOString orc)) eqn:Hk;
          [exact Hitem|].
        cbn [snd]. rewrite lookup_insert_ne; [exact Hitem|].
        intros <-. rewrite Hk in Hitem. discriminate.
      * rewrite (handler_invalid env orc event cand tbl Hp R);
          [exact Hitem|]. rewrite E. discriminate.
    + destruct (validatePostData_unreadable cand R) as [e He].
      unfold CreatePost.handler, CreatePost.attempt, try_catch, bind, lift.
      rewrite Hp, He. exact Hitem.
  - unfold CreatePost.handler, CreatePost.attempt, try_catch.
    rewrite Hp. exact Hitem.
Qed.

Lemma create_never_overwrites_witness :
  snd (@CreatePost.handler sample_runtime production (calm "post-1" jan_1)
         (request hello_text) feed_table) !! (lit "post-1", lit jan_1) =
    Some (stored_post "post-1" jan_1 "First" "published").
Proof.
  apply (@create_never_overwrites sample_runtime production
           (calm "post-1" jan_1) (request hello_text) feed_table).
  - apply table_wf_table_of.
  - vm_compute. reflexivity.
Defined.
